(** * Black-Scholes accuracy test for Nifty50 options: pricing and error summary

    A shallow embedding of the Python scripts of the repository:

    - [black_scholes], the closed-form pricing function
      (Black-Scholes Model Accuracy Test for Nifty50 Options.py);
    - the error columns the main script adds to the data frame
      ([Pricing_Error], [Percentage_Error], [Absolute_Percentage_Error]);
    - the statistics of summary.py over these columns.

    Numbers.  A Python / NumPy float is modelled by [float]: a real or
    one of the three IEEE special values [+inf], [-inf], [nan].  The
    special values behave as in IEEE 754 (division by zero, [inf - inf],
    comparisons with [nan], ...).  Rounding and the sign of zero are not
    part of the model.  The operations of [Float] are exact on finite
    values; [Double.overflow] sends a result beyond the largest double to
    an infinity, and it is applied where what the scripts do next depends
    on it: in [sigma ** 2], which raises [OverflowError] ([py_pow2]), in
    [np.exp], and in the error columns of the pipeline
    ([error_columns_double]; [error_columns] is the same computation in
    exact arithmetic). *)

From Stdlib Require Import Reals Lra Lia List Bool String Ascii.
From Stdlib Require Import Arith.Factorial Arith.PeanoNat.
From Stdlib Require Import Sorting.Permutation.
Import ListNotations.

Local Open Scope R_scope.

(* ================================================================== *)
(** * Floats                                                            *)
(* ================================================================== *)

Module Float.

Inductive float : Type :=
| Finite (x : R)
| PosInf
| NegInf
| NaN.

(** Boolean comparisons of reals. *)
Definition Rltb (x y : R) : bool := if Rlt_dec x y then true else false.
Definition Reqb (x y : R) : bool := if Req_dec_T x y then true else false.

(** The infinity with the sign of [x]; [nan] when [x] is zero
    (the value of [x * inf], and of [x / 0]). *)
Definition signed_inf (x : R) : float :=
  if Rltb 0 x then PosInf else if Rltb x 0 then NegInf else NaN.

Definition neg (a : float) : float :=
  match a with
  | Finite x => Finite (- x)
  | PosInf => NegInf
  | NegInf => PosInf
  | NaN => NaN
  end.

Definition abs (a : float) : float :=
  match a with
  | Finite x => Finite (Rabs x)
  | PosInf | NegInf => PosInf
  | NaN => NaN
  end.

Definition add (a b : float) : float :=
  match a, b with
  | NaN, _ | _, NaN => NaN
  | Finite x, Finite y => Finite (x + y)
  | PosInf, NegInf | NegInf, PosInf => NaN
  | PosInf, _ | _, PosInf => PosInf
  | NegInf, _ | _, NegInf => NegInf
  end.

Definition sub (a b : float) : float := add a (neg b).

Definition mul (a b : float) : float :=
  match a, b with
  | NaN, _ | _, NaN => NaN
  | Finite x, Finite y => Finite (x * y)
  | Finite x, PosInf | PosInf, Finite x => signed_inf x
  | Finite x, NegInf | NegInf, Finite x => signed_inf (- x)
  | PosInf, PosInf | NegInf, NegInf => PosInf
  | PosInf, NegInf | NegInf, PosInf => NegInf
  end.

(** NumPy division: a zero divisor raises nothing, the quotient is an
    infinity or [nan]. *)
Definition div (a b : float) : float :=
  match a, b with
  | NaN, _ | _, NaN => NaN
  | Finite x, Finite y => if Reqb y 0 then signed_inf x else Finite (x / y)
  | Finite _, (PosInf | NegInf) => Finite 0
  | PosInf, Finite y => if Rltb y 0 then NegInf else PosInf
  | NegInf, Finite y => if Rltb y 0 then PosInf else NegInf
  | (PosInf | NegInf), (PosInf | NegInf) => NaN
  end.

Definition ltb (a b : float) : bool :=
  match a, b with
  | NaN, _ | _, NaN => false
  | Finite x, Finite y => Rltb x y
  | _, NegInf => false
  | NegInf, _ => true
  | PosInf, _ => false
  | _, PosInf => true
  end.

Definition eqb (a b : float) : bool :=
  match a, b with
  | Finite x, Finite y => Reqb x y
  | PosInf, PosInf | NegInf, NegInf => true
  | _, _ => false
  end.

Definition leb (a b : float) : bool := ltb a b || eqb a b.

(** Python's [a != b]. *)
Definition neb (a b : float) : bool := negb (eqb a b).

Definition is_nan (a : float) : bool :=
  match a with NaN => true | _ => false end.

Definition is_finite (a : float) : bool :=
  match a with Finite _ => true | _ => false end.

Definition of_nat (n : nat) : float := Finite (INR n).

End Float.

Import Float.

Declare Scope float_scope.
Delimit Scope float_scope with float.
Bind Scope float_scope with float.
Infix "+" := add : float_scope.
Infix "-" := sub : float_scope.
Infix "*" := mul : float_scope.
Infix "/" := div : float_scope.
Notation "- x" := (neg x) : float_scope.
Infix "<?" := ltb : float_scope.
Infix "<=?" := leb : float_scope.
Infix "=?" := eqb : float_scope.
Infix "!=?" := neb (at level 70) : float_scope.

Coercion Finite : R >-> float.

(** The range of the doubles.  [max_float] is the largest finite double,
    [(2 - 2^-52) * 2^1023]; a result of larger magnitude is the infinity
    of its sign. *)
Module Double.

Definition max_float : R := (2 - / 2 ^ 52) * 2 ^ 1023.

Definition overflow (a : float) : float :=
  match a with
  | Finite x =>
      if Rltb max_float x then PosInf
      else if Rltb x (- max_float) then NegInf
      else Finite x
  | _ => a
  end.

End Double.

(* ================================================================== *)
(** * The standard normal distribution function                         *)
(* ================================================================== *)

(** [scipy.stats.norm.cdf(x, 0.0, 1.0)] is the standard normal
    distribution function

      Phi x = 1/2 + (1 / sqrt (2 pi)) * integral from 0 to x of exp (- t^2 / 2) dt.

    The integral is the everywhere convergent power series

      sum over n of  (-1)^n x^(2n+1) / (2^n n! (2n+1))  =  x * G (x^2),
      G y = sum over n of gauss_coef n * y^n. *)

Module Normal.

Definition gauss_coef (n : nat) : R :=
  (-1) ^ n / (2 ^ n * INR (fact n) * INR (2 * n + 1)).

Lemma gauss_coef_neq_0 (n : nat) : gauss_coef n <> 0.
Proof.
  unfold gauss_coef.
  assert (H1 : (-1) ^ n <> 0) by (apply pow_nonzero; lra).
  assert (H2 : 2 ^ n <> 0) by (apply pow_nonzero; lra).
  assert (H3 : INR (fact n) <> 0) by apply INR_fact_neq_0.
  assert (H4 : INR (2 * n + 1) <> 0) by (apply not_0_INR; lia).
  unfold Rdiv. apply Rmult_integral_contrapositive_currified; [assumption|].
  apply Rinv_neq_0_compat.
  repeat apply Rmult_integral_contrapositive_currified; assumption.
Qed.

Lemma gauss_coef_ratio (n : nat) :
  gauss_coef (S n) / gauss_coef n =
  - ((2 * INR n + 1) / (2 * (INR n + 1) * (2 * INR n + 3))).
Proof.
  unfold gauss_coef.
  rewrite fact_simpl, mult_INR.
  replace (INR (2 * S n + 1)) with (2 * INR n + 3)
    by (rewrite plus_INR, mult_INR, (S_INR n);
        change (INR 2) with (1 + 1); change (INR 1) with 1; ring).
  replace (INR (2 * n + 1)) with (2 * INR n + 1)
    by (rewrite plus_INR, mult_INR;
        change (INR 2) with (1 + 1); change (INR 1) with 1; ring).
  rewrite S_INR.
  pose proof (pos_INR n) as Hn.
  assert (H1 : (-1) ^ n <> 0) by (apply pow_nonzero; lra).
  assert (H2 : 2 ^ n <> 0) by (apply pow_nonzero; lra).
  assert (H3 : INR (fact n) <> 0) by apply INR_fact_neq_0.
  simpl pow. field. repeat split; try assumption; lra.
Qed.

(** D'Alembert's ratio test: the ratio of consecutive coefficients is
    below [1 / n], so the series converges for every argument. *)
Lemma gauss_coef_cv :
  Un_cv (fun n => Rabs (gauss_coef (S n) / gauss_coef n)) 0.
Proof.
  intros eps Heps.
  destruct (archimed_cor1 eps Heps) as [N [HN HN0]].
  exists N. intros n Hn.
  unfold Rdist. rewrite Rminus_0_r, Rabs_Rabsolu, gauss_coef_ratio, Rabs_Ropp.
  assert (HNn : INR N <= INR n) by (apply le_INR; lia).
  assert (HNpos : 0 < INR N) by (apply lt_0_INR; lia).
  set (x := INR n) in *.
  set (d := 2 * (x + 1) * (2 * x + 3)).
  assert (Hd : 0 < d) by (unfold d; nra).
  assert (Hle : (2 * x + 1) / d <= / x).
  { apply Rmult_le_reg_r with (x * d); [nra|].
    replace ((2 * x + 1) / d * (x * d)) with ((2 * x + 1) * x) by (field; lra).
    replace (/ x * (x * d)) with d by (field; lra).
    unfold d. nra. }
  rewrite Rabs_pos_eq.
  2:{ apply Rmult_le_pos; [lra|]. apply Rlt_le, Rinv_0_lt_compat, Hd. }
  apply Rle_lt_trans with (/ INR N); [|assumption].
  apply Rle_trans with (/ x); [exact Hle|].
  apply Rinv_le_contravar; lra.
Qed.

Definition gauss_series (y : R) : R :=
  proj1_sig (Alembert_C3 gauss_coef y gauss_coef_neq_0 gauss_coef_cv).

Definition Phi (x : R) : R :=
  1 / 2 + / sqrt (2 * PI) * (x * gauss_series (x * x)).

End Normal.

Import Normal.

(* ================================================================== *)
(** * Python and NumPy primitives used by the scripts                   *)
(* ================================================================== *)

(** Exceptions the pricing function can raise, and the result of a call:
    a returned value or a raised exception. *)
Inductive exn : Type :=
| ValueError (msg : string)
| ZeroDivisionError
| OverflowError.

Inductive outcome (A : Type) : Type :=
| Return (v : A)
| Raise (e : exn).

Arguments Return {A} v.
Arguments Raise {A} e.

Definition bind {A B : Type} (c : outcome A) (k : A -> outcome B) : outcome B :=
  match c with
  | Return v => k v
  | Raise e => Raise e
  end.

Notation "x <- c ;; k" := (bind c (fun x => k))
  (at level 61, c at next level, right associativity).

Local Open Scope float_scope.

(** [a / b] on Python floats raises [ZeroDivisionError] on a zero
    divisor. *)
Definition truediv (a b : float) : outcome float :=
  if b =? 0 then Raise ZeroDivisionError else Return (a / b).

(** [x ** 2] on a Python float: [OverflowError] when the square of a
    finite float is beyond the largest double. *)
Definition py_pow2 (a : float) : outcome float :=
  match a with
  | Finite x =>
      if Rltb Double.max_float (x ^ 2) then Raise OverflowError
      else Return (Finite (x ^ 2))
  | PosInf | NegInf => Return PosInf
  | NaN => Return NaN
  end.

(** [x ** 2] on the values of a NumPy array, which raises nothing; in
    exact arithmetic. *)
Definition pow2 (a : float) : float :=
  match a with
  | Finite x => Finite (x ^ 2)
  | PosInf | NegInf => PosInf
  | NaN => NaN
  end.

(** Python's [max(a, b)]: [b] when [b > a], else [a]. *)
Definition py_max (a b : float) : float := if a <? b then b else a.

(** [np.log], [np.sqrt], [np.exp]: outside their real domain they return
    [nan] or an infinity (with a warning), they do not raise; [np.exp]
    overflows to [inf]. *)
Definition np_log (a : float) : float :=
  match a with
  | Finite x => if Rltb 0 x then Finite (ln x)
                else if Reqb x 0 then NegInf else NaN
  | PosInf => PosInf
  | NegInf | NaN => NaN
  end.

Definition np_sqrt (a : float) : float :=
  match a with
  | Finite x => if Rltb x 0 then NaN else Finite (sqrt x)
  | PosInf => PosInf
  | NegInf | NaN => NaN
  end.

Definition np_exp (a : float) : float :=
  match a with
  | Finite x => Double.overflow (Finite (exp x))
  | PosInf => PosInf
  | NegInf => Finite 0
  | NaN => NaN
  end.

(** [norm.cdf(x, 0.0, 1.0)] of [scipy.stats]. *)
Definition norm_cdf (a : float) : float :=
  match a with
  | Finite x => Finite (Phi x)
  | PosInf => Finite 1
  | NegInf => Finite 0
  | NaN => NaN
  end.

(** [str.lower] on the ASCII letters; other characters are unchanged. *)
Definition lower_ascii (c : ascii) : ascii :=
  let n := nat_of_ascii c in
  if ((65 <=? n) && (n <=? 90))%nat then ascii_of_nat (n + 32) else c.

Fixpoint lower (s : string) : string :=
  match s with
  | EmptyString => EmptyString
  | String c s' => String (lower_ascii c) (lower s')
  end.

(** [str.upper], likewise (the header line of each row prints the option
    type in upper case). *)
Definition upper_ascii (c : ascii) : ascii :=
  let n := nat_of_ascii c in
  if ((97 <=? n) && (n <=? 122))%nat then ascii_of_nat (n - 32) else c.

Fixpoint upper (s : string) : string :=
  match s with
  | EmptyString => EmptyString
  | String c s' => String (upper_ascii c) (upper s')
  end.

(* ================================================================== *)
(** * The pricing function                                              *)
(* ================================================================== *)

(** [black_scholes(S, K, T, r, sigma, option_type)]. *)
Definition black_scholes (S K T r sigma : float) (option_type : string)
  : outcome float :=
  if T <=? 0 then
    if (lower option_type =? "call")%string then Return (py_max 0 (S - K))
    else if (lower option_type =? "put")%string then Return (py_max 0 (K - S))
    else Return (Finite 0)
  else
    ratio <- truediv S K ;;
    sigma2 <- py_pow2 sigma ;;
    let d1 := (np_log ratio + (r + 0.5 * sigma2) * T) / (sigma * np_sqrt T) in
    let d2 := d1 - sigma * np_sqrt T in
    if (lower option_type =? "call")%string then
      Return (S * norm_cdf d1 - K * np_exp (- r * T) * norm_cdf d2)
    else if (lower option_type =? "put")%string then
      Return (K * np_exp (- r * T) * norm_cdf (- d2) - S * norm_cdf (- d1))
    else
      Raise (ValueError "Invalid option type. Please choose 'call' or 'put'.").

(** The formulas of the specification, over the reals: the intrinsic
    value of each kind, the auxiliary quantities and the two prices. *)
Inductive option_kind : Type := Call | Put.

Definition intrinsic_value_spec (S K : R) (kind : option_kind) : R :=
  match kind with
  | Call => Rmax 0 (S - K)
  | Put => Rmax 0 (K - S)
  end.

Definition d1_spec (S K T r sigma : R) : R :=
  ((ln (S / K) + (r + 0.5 * sigma ^ 2) * T) / (sigma * sqrt T))%R.

Definition d2_spec (S K T r sigma : R) : R :=
  (d1_spec S K T r sigma - sigma * sqrt T)%R.

Definition call_price_spec (S K T r sigma : R) : R :=
  (S * Phi (d1_spec S K T r sigma)
   - K * exp (- r * T) * Phi (d2_spec S K T r sigma))%R.

Definition put_price_spec (S K T r sigma : R) : R :=
  (K * exp (- r * T) * Phi (- d2_spec S K T r sigma)
   - S * Phi (- d1_spec S K T r sigma))%R.

(* ================================================================== *)
(** * pandas reductions                                                 *)
(* ================================================================== *)

(** [Series.mean], [Series.median] and [Series.std] with their default
    arguments: missing values ([nan]) are skipped, [std] divides by the
    count minus one, and a reduction over too few values is [nan]. *)
Module Pandas.

Definition dropna (l : list float) : list float :=
  filter (fun x => negb (is_nan x)) l.

Definition sum (l : list float) : float :=
  fold_left add l (Finite 0).

(** [pd.isna] *)
Definition isna (x : float) : bool := is_nan x.

Definition mean (l : list float) : float :=
  let values := dropna l in
  match values with
  | [] => NaN
  | _ => sum values / of_nat (List.length values)
  end.

(** Variance, as [nanops.nanvar] computes it: the squared deviations
    from the mean, summed and divided by [count - ddof], [ddof = 1]. *)
Definition var (l : list float) : float :=
  let values := dropna l in
  let count := List.length values in
  if (count <=? 1)%nat then NaN
  else
    let avg := sum values / of_nat count in
    let sqr := map (fun x => pow2 (avg - x)) values in
    sum sqr / of_nat (count - 1).

Definition std (l : list float) : float := np_sqrt (var l).

Fixpoint insert (x : float) (l : list float) : list float :=
  match l with
  | [] => [x]
  | y :: l' => if x <=? y then x :: l else y :: insert x l'
  end.

Definition sort (l : list float) : list float := fold_right insert [] l.

(** The middle value of the sorted values, the mean of the two middle
    values when their number is even. *)
Definition median (l : list float) : float :=
  let values := sort (dropna l) in
  let n := List.length values in
  match n with
  | O => NaN
  | _ =>
      if Nat.odd n then nth (n / 2) values NaN
      else (nth (n / 2 - 1) values NaN + nth (n / 2) values NaN) / Finite 2
  end.

End Pandas.

(* ================================================================== *)
(** * The data frame                                                    *)
(* ================================================================== *)

(** A row of the cleaned CSV file, with its time to expiration. *)
Module Csv.

Record quote : Type := mkQuote {
  Nifty_Close : float;
  Strike_Price : float;
  Time_to_Expiration_Days : float;
  Option_Type : string;
  Option_Close : float
}.

(** [options_df['T'] = options_df['Time_to_Expiration_Days'] / 365.0] *)
Definition T (q : quote) : float := Time_to_Expiration_Days q / Finite 365.

End Csv.

(** A row of [options_df] once the price and the error columns are
    there: the columns the error analysis and the summary read. *)
Record row : Type := mkRow {
  Option_Type : string;
  Option_Close : float;
  Black_Scholes_Price : float;
  Pricing_Error : float;
  Percentage_Error : float;
  Absolute_Percentage_Error : float
}.

(** The three error columns of a priced row:
[[
  options_df['Pricing_Error'] = options_df['Black_Scholes_Price'] - options_df['Option_Close']
  options_df['Percentage_Error'] = options_df.apply(
      lambda row: (row['Pricing_Error'] / row['Option_Close']) * 100
                  if row['Option_Close'] != 0 else float('inf'), axis=1)
  options_df['Absolute_Percentage_Error'] = options_df['Percentage_Error'].abs()
]]
    (the plotting script computes the same three columns when they are
    missing). *)
Definition error_columns (option_type : string) (option_close price : float)
  : row :=
  let pricing_error := price - option_close in
  let percentage_error :=
    if option_close !=? 0 then pricing_error / option_close * Finite 100
    else PosInf in
  {| Option_Type := option_type;
     Option_Close := option_close;
     Black_Scholes_Price := price;
     Pricing_Error := pricing_error;
     Percentage_Error := percentage_error;
     Absolute_Percentage_Error := abs percentage_error |}.

(** The same three columns with the overflow of each operation: the
    difference, the quotient and the product by 100. *)
Definition error_columns_double (option_type : string)
                                (option_close price : float) : row :=
  let pricing_error := Double.overflow (price - option_close) in
  let percentage_error :=
    if option_close !=? 0 then
      Double.overflow (Double.overflow (pricing_error / option_close) * Finite 100)
    else PosInf in
  {| Option_Type := option_type;
     Option_Close := option_close;
     Black_Scholes_Price := price;
     Pricing_Error := pricing_error;
     Percentage_Error := percentage_error;
     Absolute_Percentage_Error := abs percentage_error |}.

(** [DataFrame.apply(f, axis=1)] on a frame with rows: the rows in order;
    the first exception ends the whole call. *)
Fixpoint apply_rows {A B : Type} (f : A -> outcome B) (l : list A)
  : outcome (list B) :=
  match l with
  | [] => Return []
  | a :: l' => b <- f a ;; bs <- apply_rows f l' ;; Return (b :: bs)
  end.

(** The constant parameters of the main script. *)
Definition r : float := Finite 0.0685.
Definition sigma : float := Finite 0.1450.

(** The main script, from the cleaned rows to the frame with its price
    and error columns.  On a frame without rows [apply] returns an empty
    frame, not a series, and the assignment
    [options_df['Black_Scholes_Price'] = options_df.apply(...)] raises
    [ValueError] (the text is that of pandas 2). *)
Definition empty_frame_error : exn :=
  ValueError
    "Cannot set a DataFrame with multiple columns to the single column Black_Scholes_Price".

Definition accuracy_test (csv : list Csv.quote) : outcome (list row) :=
  match csv with
  | [] => Raise empty_frame_error
  | _ =>
      apply_rows
        (fun q =>
           price <- black_scholes (Csv.Nifty_Close q) (Csv.Strike_Price q)
                                  (Csv.T q) r sigma (Csv.Option_Type q) ;;
           Return (error_columns_double (Csv.Option_Type q) (Csv.Option_Close q)
                                        price))
        csv
  end.

(* ================================================================== *)
(** * summary.py                                                        *)
(* ================================================================== *)

(** [x != float('inf')] *)
Definition not_inf (x : float) : bool := x !=? PosInf.

Definition processed_rows (options_df : list row) : nat := List.length options_df.

(** [options_df['Option_Type'].value_counts()], as the count it gives for
    each value of the column. *)
Definition option_counts (options_df : list row) (option_type : string) : nat :=
  count_occ string_dec (map Option_Type options_df) option_type.

(** The series the statistics are taken over, the rows with the [+inf]
    of a zero closing price filtered out:
[[
  options_df[options_df['Absolute_Percentage_Error'] != float('inf')]['Absolute_Percentage_Error']
  options_df[options_df['Percentage_Error'] != float('inf')]['Percentage_Error']
]] *)
Definition valid_absolute_errors (options_df : list row) : list float :=
  map Absolute_Percentage_Error
      (filter (fun row => not_inf (Absolute_Percentage_Error row)) options_df).

Definition valid_errors (options_df : list row) : list float :=
  map Percentage_Error
      (filter (fun row => not_inf (Percentage_Error row)) options_df).

(** The row masks of the per-kind frames:
[[
  (options_df['Option_Type'].str.lower() == 'call')
    & (options_df['Absolute_Percentage_Error'] != float('inf'))
]] *)
Definition call_mask (row : row) : bool :=
  (lower (Option_Type row) =? "call")%string
  && not_inf (Absolute_Percentage_Error row).

Definition put_mask (row : row) : bool :=
  (lower (Option_Type row) =? "put")%string
  && not_inf (Absolute_Percentage_Error row).

Definition call_options_df (options_df : list row) : list row :=
  filter call_mask options_df.

Definition put_options_df (options_df : list row) : list row :=
  filter put_mask options_df.

Definition average_absolute_error (options_df : list row) : float :=
  Pandas.mean (valid_absolute_errors options_df).

Definition average_call_error (options_df : list row) : float :=
  Pandas.mean (map Absolute_Percentage_Error (call_options_df options_df)).

Definition average_put_error (options_df : list row) : float :=
  Pandas.mean (map Absolute_Percentage_Error (put_options_df options_df)).

Definition median_absolute_error (options_df : list row) : float :=
  Pandas.median (valid_absolute_errors options_df).

Definition std_dev_error (options_df : list row) : float :=
  Pandas.std (valid_errors options_df).

Definition mean_error (options_df : list row) : float :=
  Pandas.mean (valid_errors options_df).

(** What the summary prints for a statistic: the number, formatted
    [{:.2f}%], or one of the two lines that stand for it, "Could not be
    calculated" and "No valid ... data to calculate average error". *)
Inductive printed : Type :=
| Percent (x : float)
| NotCalculated
| NoValidData.

(** [if not pd.isna(x): print(... x ...) else: print("... Could not be calculated ...")] *)
Definition print_unless_na (x : float) : printed :=
  if Pandas.isna x then NotCalculated else Percent x.

(** [if not df.empty: print(... mean ...) else: print("No valid ... data ...")] *)
Definition print_unless_empty (df : list row) (x : float) : printed :=
  match df with
  | [] => NoValidData
  | _ => Percent x
  end.

Record summary : Type := mkSummary {
  total_options_processed : nat;
  number_of_options : string -> nat;
  shown_average_absolute_error : printed;
  shown_average_call_error : printed;
  shown_average_put_error : printed;
  shown_median_absolute_error : printed;
  shown_std_dev_error : printed;
  shown_mean_error : printed
}.

(** The quantitative summary; [None] is the branch that prints
    "No data available in 'options_df' to provide a summary." *)
Definition quantitative_summary (options_df : list row) : option summary :=
  match options_df with
  | [] => None
  | _ =>
      Some {|
        total_options_processed := processed_rows options_df;
        number_of_options := option_counts options_df;
        shown_average_absolute_error :=
          print_unless_na (average_absolute_error options_df);
        shown_average_call_error :=
          print_unless_empty (call_options_df options_df)
                             (average_call_error options_df);
        shown_average_put_error :=
          print_unless_empty (put_options_df options_df)
                             (average_put_error options_df);
        shown_median_absolute_error :=
          print_unless_na (median_absolute_error options_df);
        shown_std_dev_error := print_unless_na (std_dev_error options_df);
        shown_mean_error := print_unless_na (mean_error options_df)
      |}
  end.

(** The overall summary at the end of the main script (its step 5): the
    number of rows and the mean absolute error, which is printed as it
    is; an empty frame gets the no-data message instead. *)
Definition overall_summary (options_df : list row) : option (nat * printed) :=
  if (0 <? processed_rows options_df)%nat then
    Some (processed_rows options_df,
          Percent (Pandas.mean (valid_absolute_errors options_df)))
  else None.

(** The values [value_counts] has an entry for: the distinct values of
    the column.  (pandas lists them by decreasing count; the order plays
    no part below.) *)
Definition option_types (options_df : list row) : list string :=
  nodup string_dec (map Option_Type options_df).

(** The lines the main script prints for each row after its header line
    (the header reads the date and the strike, which are no columns of
    [row]): the market price, the model price, and the pricing
    difference with its percentage, "(Infinite %)" when the percentage
    error is [float('inf')]:
[[
  if row['Percentage_Error'] == float('inf'):
       print(f"  Pricing Difference:  {row['Pricing_Error']:.2f} (Infinite %)")
  else:
       print(f"  Pricing Difference:  {row['Pricing_Error']:.2f} ({row['Percentage_Error']:.2f}%)")
]] *)
Inductive shown_percentage : Type :=
| InfinitePercent
| PercentOf (x : float).

Record row_lines : Type := mkRowLines {
  actual_market_price : float;
  shown_black_scholes_price : float;
  pricing_difference : float;
  pricing_percentage : shown_percentage
}.

Definition print_row (row : row) : row_lines :=
  {| actual_market_price := Option_Close row;
     shown_black_scholes_price := Black_Scholes_Price row;
     pricing_difference := Pricing_Error row;
     pricing_percentage :=
       if Percentage_Error row =? PosInf then InfinitePercent
       else PercentOf (Percentage_Error row) |}.

(** The plotting script.  When the frame lacks the error columns it
    computes them, from the price and the closing price of each row;
    then it draws the histogram of the percentage errors that are not
    [float('inf')], or prints that there are none to plot. *)
Definition recompute_errors (old : row) : row :=
  error_columns_double (Option_Type old) (Option_Close old)
                       (Black_Scholes_Price old).

Definition errors_to_plot (options_df : list row) : list float :=
  map Percentage_Error
      (filter (fun row => not_inf (Percentage_Error row)) options_df).

Inductive plot : Type :=
| Histogram (errors : list float)
| NoValidErrors.

Definition distribution_plot (has_error_columns : bool) (options_df : list row)
  : plot :=
  let options_df :=
    if has_error_columns then options_df else map recompute_errors options_df in
  match errors_to_plot options_df with
  | [] => NoValidErrors
  | errors => Histogram errors
  end.

(* ================================================================== *)
(** * Definitions used to state the properties                         *)
(* ================================================================== *)

(** The kinds the pricing function tells apart, by the lowered string. *)
Definition is_call (option_type : string) : bool := (lower option_type =? "call")%string.
Definition is_put (option_type : string) : bool := (lower option_type =? "put")%string.

(** The quantity [d1] as the regular branch computes it on real inputs:
    a quotient of floats, whose divisor may be zero. *)
Definition d1_code (S K T r sigma : R) : float :=
  (Finite (ln (S / K) + (r + 0.5 * sigma ^ 2) * T)) / (Finite (sigma * sqrt T)).

(** Inputs of the regular branch for which no step of the formula leaves
    the range of the doubles: spot, strike, time and volatility between
    [2^-64] and [2^64], and [|r * T| <= 500]. *)
Definition moderate (x : R) : Prop := (/ 2 ^ 64 <= x <= 2 ^ 64)%R.

Definition within_range (S K T r sigma : R) : Prop :=
  moderate S /\ moderate K /\ moderate T /\ moderate sigma
  /\ (Rabs (r * T) <= 500)%R.

(** A finite float whose square is beyond the largest double. *)
Definition square_overflows (a : float) : bool :=
  match a with
  | Finite x => Rltb Double.max_float (x ^ 2)
  | _ => false
  end.

(** A record as the aggregation receives it: the kind, the theoretical
    price and the observed price, both prices finite. *)
Record sample : Type := mkSample {
  kind : string;
  theoretical_price : R;
  observed_price : R
}.

Definition error_sample (s : sample) : row :=
  error_columns (kind s) (Finite (observed_price s)) (Finite (theoretical_price s)).

(** The frame of the records, in their order. *)
Definition error_samples (l : list sample) : list row := map error_sample l.

(** The row and the frame of the records with the overflow of the
    doubles. *)
Definition double_sample (s : sample) : row :=
  error_columns_double (kind s) (Finite (observed_price s))
                       (Finite (theoretical_price s)).

Definition double_samples (l : list sample) : list row := map double_sample l.

(** A record whose percentage error, when its observed price is not
    zero, is a finite number: none of the three operations overflows. *)
Definition no_overflow (s : sample) : Prop :=
  observed_price s <> 0%R ->
  is_finite (Percentage_Error (double_sample s)) = true.

(** The percentage error of the specification, over the reals. *)
Definition percentage_error_spec (theoretical observed : R) : R :=
  ((theoretical - observed) / observed * 100)%R.

(** The rows whose percentage error is a finite value. *)
Definition defined_subset (options_df : list row) : list row :=
  filter (fun row => is_finite (Percentage_Error row)) options_df.

(** The reals in a list of floats. *)
Fixpoint finite_values (l : list float) : list R :=
  match l with
  | [] => []
  | Finite x :: l' => x :: finite_values l'
  | _ :: l' => finite_values l'
  end.

(** Mean and sample standard deviation (denominator [n - 1]) of a list
    of reals. *)
Definition Rsum (xs : list R) : R := fold_right Rplus 0%R xs.

Definition Rmean (xs : list R) : R := (Rsum xs / INR (List.length xs))%R.

Definition sample_variance (xs : list R) : R :=
  (Rsum (map (fun x => (x - Rmean xs) ^ 2) xs) / INR (List.length xs - 1))%R.

Definition sample_stddev (xs : list R) : R := sqrt (sample_variance xs).

(** A row is well formed when its percentage error is a finite value or
    the [+inf] that stands for a zero observed price, and its absolute
    error is the absolute value of it. *)
Definition well_formed (row : row) : Prop :=
  (is_finite (Percentage_Error row) = true \/ Percentage_Error row = PosInf)
  /\ Absolute_Percentage_Error row = abs (Percentage_Error row).

(** The records with a zero observed price. *)
Definition zero_priced (l : list sample) : list sample :=
  filter (fun s => Reqb (observed_price s) 0) l.

(** Two rows that agree on every column, up to the letter case of the
    option type. *)
Definition same_up_to_case (a b : row) : Prop :=
  lower (Option_Type a) = lower (Option_Type b)
  /\ Option_Close a = Option_Close b
  /\ Black_Scholes_Price a = Black_Scholes_Price b
  /\ Pricing_Error a = Pricing_Error b
  /\ Percentage_Error a = Percentage_Error b
  /\ Absolute_Percentage_Error a = Absolute_Percentage_Error b.

(** Three records with observed prices 100, 0 and 50. *)
Definition three_records : list sample :=
  [ mkSample "call" 110 100; mkSample "put" 7 0; mkSample "Call" 45 50 ].

(** Two records, both with a zero observed price. *)
Definition zero_priced_records : list sample :=
  [ mkSample "call" 12.5 0; mkSample "put" 3 0 ].

(** A record whose observed price is the subnormal double [2^-1030]:
    its percentage error overflows. *)
Definition tiny_price_record : sample := mkSample "call" 12.5 (/ 2 ^ 1030).


(** A call on its expiry day, in the money, with a zero closing price. *)
Definition expiry_day_quote : Csv.quote :=
  Csv.mkQuote (Finite 17100) (Finite 17000) (Finite 0) "Call" (Finite 0).

Definition expiry_day_row : row :=
  error_columns "Call" (Finite 0) (py_max (Finite 0) (Finite 17100 - Finite 17000)).

(** The price the main script computes for one row of the file. *)
Definition quote_price (q : Csv.quote) : outcome float :=
  black_scholes (Csv.Nifty_Close q) (Csv.Strike_Price q) (Csv.T q) r sigma
                (Csv.Option_Type q).






(** The frame of priced rows with any floats in their columns. *)
Definition priced_frame (l : list (string * float * float)) : list row :=
  map (fun t => error_columns (fst (fst t)) (snd (fst t)) (snd t)) l.

(** The rows of the overall statistics that are neither calls nor
    puts. *)
Definition other_options_df (options_df : list row) : list row :=
  filter (fun row => negb (is_call (Option_Type row))
                     && negb (is_put (Option_Type row))
                     && not_inf (Absolute_Percentage_Error row)) options_df.

(** The records with a non-zero observed price. *)
Definition priced_records (l : list sample) : list sample :=
  filter (fun s => negb (Reqb (observed_price s) 0)) l.


(* ================================================================== *)
(** * Facts about floats                                                *)
(* ================================================================== *)

Lemma Rltb_true (x y : R) : (x < y)%R -> Rltb x y = true.
Proof. intros H. unfold Rltb. destruct (Rlt_dec x y); [reflexivity | contradiction]. Qed.

Lemma Rltb_false (x y : R) : (y <= x)%R -> Rltb x y = false.
Proof. intros H. unfold Rltb. destruct (Rlt_dec x y); [lra | reflexivity]. Qed.

Lemma Reqb_true (x y : R) : x = y -> Reqb x y = true.
Proof. intros H. unfold Reqb. destruct (Req_dec_T x y); [reflexivity | contradiction]. Qed.

Lemma Reqb_false (x y : R) : x <> y -> Reqb x y = false.
Proof. intros H. unfold Reqb. destruct (Req_dec_T x y); [contradiction | reflexivity]. Qed.

Lemma Reqb_eq (x y : R) : Reqb x y = true <-> x = y.
Proof.
  unfold Reqb. destruct (Req_dec_T x y); split; intros; congruence.
Qed.

Lemma leb_Finite_true (x y : R) : (x <= y)%R -> (Finite x <=? Finite y) = true.
Proof.
  intros H. unfold leb; cbn [ltb eqb].
  destruct (Rle_lt_or_eq_dec x y H) as [Hlt | Heq].
  - rewrite Rltb_true by assumption. reflexivity.
  - rewrite (Reqb_true _ _ Heq). apply orb_true_r.
Qed.

Lemma leb_Finite_false (x y : R) : (y < x)%R -> (Finite x <=? Finite y) = false.
Proof.
  intros H. unfold leb; cbn [ltb eqb].
  rewrite Rltb_false by lra. rewrite Reqb_false by lra. reflexivity.
Qed.

Lemma eqb_Finite_false (x y : R) : x <> y -> (Finite x =? Finite y) = false.
Proof. intros H. cbn [eqb]. apply Reqb_false, H. Qed.

Lemma neb_Finite_true (x y : R) : x <> y -> (Finite x !=? Finite y) = true.
Proof. intros H. unfold neb. rewrite eqb_Finite_false by assumption. reflexivity. Qed.

Lemma div_Finite (x y : R) : y <> 0%R -> Finite x / Finite y = Finite (x / y).
Proof. intros H. cbn [div]. rewrite Reqb_false by assumption. reflexivity. Qed.

Lemma div_Finite_zero (x y : R) : y = 0%R -> Finite x / Finite y = signed_inf x.
Proof. intros H. cbn [div]. rewrite Reqb_true by assumption. reflexivity. Qed.

Lemma signed_inf_pos (x : R) : (0 < x)%R -> signed_inf x = PosInf.
Proof. intros H. unfold signed_inf. rewrite Rltb_true by assumption. reflexivity. Qed.


Lemma signed_inf_zero (x : R) : x = 0%R -> signed_inf x = NaN.
Proof.
  intros H. unfold signed_inf. rewrite !Rltb_false by lra. reflexivity.
Qed.

Lemma np_log_Finite (x : R) : (0 < x)%R -> np_log (Finite x) = Finite (ln x).
Proof. intros H. cbn [np_log]. rewrite Rltb_true by assumption. reflexivity. Qed.

Lemma np_sqrt_Finite (x : R) : (0 <= x)%R -> np_sqrt (Finite x) = Finite (sqrt x).
Proof. intros H. cbn [np_sqrt]. rewrite Rltb_false by assumption. reflexivity. Qed.

Lemma py_max_Finite (x y : R) : py_max (Finite x) (Finite y) = Finite (Rmax x y).
Proof.
  unfold py_max, Rmax; cbn [ltb]. unfold Rltb.
  destruct (Rlt_dec x y), (Rle_dec x y); try reflexivity; try lra.
  f_equal; lra.
Qed.

Lemma truediv_Finite (x y : R) :
  y <> 0%R -> truediv (Finite x) (Finite y) = Return (Finite (x / y)).
Proof.
  intros H. unfold truediv.
  rewrite eqb_Finite_false by assumption. rewrite div_Finite by assumption.
  reflexivity.
Qed.

(** [lower] is idempotent: lowering leaves a lowered string unchanged. *)
Lemma lower_ascii_idem (c : ascii) : lower_ascii (lower_ascii c) = lower_ascii c.
Proof.
  destruct c as [[] [] [] [] [] [] [] []]; reflexivity.
Qed.

Lemma lower_idem (s : string) : lower (lower s) = lower s.
Proof.
  induction s as [| c s IH]; cbn [lower]; [reflexivity |].
  rewrite lower_ascii_idem, IH. reflexivity.
Qed.

(* ================================================================== *)
(** * The pricing function: branches                                    *)
(* ================================================================== *)

(** The expired branch, on any floats. *)
Lemma black_scholes_expired (S K T r sigma : float) (option_type : string) :
  (T <=? 0) = true ->
  black_scholes S K T r sigma option_type =
  if is_call option_type then Return (py_max (Finite 0) (S - K))
  else if is_put option_type then Return (py_max (Finite 0) (K - S))
  else Return (Finite 0).
Proof. intros H. unfold black_scholes, is_call, is_put. rewrite H. reflexivity. Qed.

(* ================================================================== *)
(** * The range of the doubles                                          *)
(* ================================================================== *)

Lemma max_float_ge_pow (n : nat) :
  (n <= 1023)%nat -> (2 ^ n <= Double.max_float)%R.
Proof.
  intros Hn. unfold Double.max_float.
  assert (H1 : (2 ^ n <= 2 ^ 1023)%R) by (apply Rle_pow; [lra | exact Hn]).
  assert (H2 : (0 < 2 ^ 1023)%R) by (apply pow_lt; lra).
  assert (H3 : (1 <= 2 ^ 52)%R) by (apply pow_R1_Rle; lra).
  assert (H4 : (/ 2 ^ 52 <= 1)%R).
  { rewrite <- Rinv_1. apply Rinv_le_contravar; [lra | exact H3]. }
  generalize dependent (2 ^ 1023)%R. generalize dependent (/ 2 ^ 52)%R.
  intros q Hq p Hp1 Hp2. nra.
Qed.

Lemma max_float_lt_pow (n : nat) :
  (1024 <= n)%nat -> (Double.max_float < 2 ^ n)%R.
Proof.
  intros Hn. unfold Double.max_float.
  assert (H1 : (2 ^ 1024 <= 2 ^ n)%R) by (apply Rle_pow; [lra | exact Hn]).
  rewrite <- (tech_pow_Rmult 2 1023) in H1.
  assert (H2 : (0 < 2 ^ 1023)%R) by (apply pow_lt; lra).
  assert (H3 : (0 < / 2 ^ 52)%R) by (apply Rinv_0_lt_compat, pow_lt; lra).
  generalize dependent (2 ^ 1023)%R. generalize dependent (/ 2 ^ 52)%R.
  intros q Hq p Hp1 Hp2. nra.
Qed.

Lemma max_float_ge_1 : (1 <= Double.max_float)%R.
Proof. apply (max_float_ge_pow 0). lia. Qed.

Lemma max_float_ge_million : (1000000 <= Double.max_float)%R.
Proof.
  pose proof (max_float_ge_pow 20 ltac:(lia)) as H.
  assert (H20 : (2 ^ 20 = 1048576)%R) by (simpl; lra).
  lra.
Qed.

Lemma overflow_in_range (x : R) :
  (- Double.max_float <= x <= Double.max_float)%R ->
  Double.overflow (Finite x) = Finite x.
Proof.
  intros [H1 H2]. unfold Double.overflow.
  rewrite !Rltb_false by assumption. reflexivity.
Qed.

Lemma overflow_above (x : R) :
  (Double.max_float < x)%R -> Double.overflow (Finite x) = PosInf.
Proof.
  intros H. unfold Double.overflow. rewrite Rltb_true by assumption. reflexivity.
Qed.


Lemma exp_INR (n : nat) : exp (INR n) = (exp 1 ^ n)%R.
Proof.
  induction n as [| n IH].
  - simpl. apply exp_0.
  - rewrite S_INR, exp_plus, IH. simpl. ring.
Qed.

Lemma exp_500_within_range : (exp 500 <= Double.max_float)%R.
Proof.
  replace 500%R with (INR 500) by (rewrite INR_IZR_INZ; reflexivity).
  rewrite exp_INR.
  assert (H3 : (0 <= exp 1 <= 2 ^ 2)%R).
  { pose proof exp_le_3. pose proof (exp_pos 1). simpl. lra. }
  apply Rle_trans with ((2 ^ 2) ^ 500)%R.
  - apply pow_incr. exact H3.
  - rewrite <- pow_mult. apply max_float_ge_pow. lia.
Qed.

Lemma exp_2000_beyond_range : (Double.max_float < exp 2000)%R.
Proof.
  replace 2000%R with (INR 2000) by (rewrite INR_IZR_INZ; reflexivity).
  rewrite exp_INR.
  apply Rlt_le_trans with (2 ^ 2000)%R.
  - apply max_float_lt_pow. lia.
  - apply pow_incr. pose proof (exp_ineq1 1). lra.
Qed.

Lemma np_exp_Finite (x : R) :
  (exp x <= Double.max_float)%R -> np_exp (Finite x) = Finite (exp x).
Proof.
  intros H. cbn [np_exp]. apply overflow_in_range.
  pose proof (exp_pos x). pose proof max_float_ge_1. lra.
Qed.

Lemma np_exp_overflow (x : R) :
  (Double.max_float < exp x)%R -> np_exp (Finite x) = PosInf.
Proof. intros H. cbn [np_exp]. apply overflow_above, H. Qed.

Lemma py_pow2_Finite (x : R) :
  (x ^ 2 <= Double.max_float)%R -> py_pow2 (Finite x) = Return (Finite (x ^ 2)).
Proof. intros H. cbn [py_pow2]. rewrite Rltb_false by assumption. reflexivity. Qed.

Lemma py_pow2_overflow (x : R) :
  (Double.max_float < x ^ 2)%R -> py_pow2 (Finite x) = Raise OverflowError.
Proof. intros H. cbn [py_pow2]. rewrite Rltb_true by assumption. reflexivity. Qed.

(** [sigma ** 2] raises exactly on the finite floats whose square
    overflows. *)
Lemma py_pow2_square_overflows (a : float) :
  square_overflows a = true -> py_pow2 a = Raise OverflowError.
Proof.
  destruct a as [x | | |]; cbn [square_overflows py_pow2]; intros H;
    [rewrite H; reflexivity | discriminate ..].
Qed.

Lemma py_pow2_returns (a : float) :
  square_overflows a = false -> exists v, py_pow2 a = Return v.
Proof.
  destruct a as [x | | |]; cbn [square_overflows py_pow2]; intros H;
    [rewrite H |..]; eexists; reflexivity.
Qed.

Lemma moderate_pos (x : R) : moderate x -> (0 < x)%R.
Proof.
  intros [H _].
  assert (0 < / 2 ^ 64)%R by (apply Rinv_0_lt_compat, pow_lt; lra).
  lra.
Qed.


Lemma moderate_square (x : R) : moderate x -> (x ^ 2 <= Double.max_float)%R.
Proof.
  intros H. pose proof (moderate_pos x H) as Hpos. destruct H as [_ H].
  apply Rle_trans with ((2 ^ 64) ^ 2)%R.
  - apply pow_incr. lra.
  - rewrite <- pow_mult. apply max_float_ge_pow. lia.
Qed.

Lemma exp_within_range (x : R) : (x <= 500)%R -> (exp x <= Double.max_float)%R.
Proof.
  intros H. apply Rle_trans with (exp 500); [| exact exp_500_within_range].
  destruct H as [H | H]; [left; apply exp_increasing, H | right; rewrite H; reflexivity].
Qed.

Lemma within_range_exp (S K T r sigma : R) :
  within_range S K T r sigma -> (exp (- r * T) <= Double.max_float)%R.
Proof.
  intros (_ & _ & _ & _ & H). apply exp_within_range.
  pose proof (Rle_abs (- (r * T))) as Habs. rewrite Rabs_Ropp in Habs. lra.
Qed.

(* ================================================================== *)
(** * The pricing function: the regular branch                          *)
(* ================================================================== *)

(** The regular branch on real inputs, once [S / K] and [sigma ** 2] have
    raised nothing. *)
Lemma black_scholes_regular (S K T r sigma : R) (option_type : string) :
  (0 < S)%R -> (0 < K)%R -> (0 < T)%R -> (sigma ^ 2 <= Double.max_float)%R ->
  black_scholes S K T r sigma option_type =
  let d1 := d1_code S K T r sigma in
  let d2 := d1 - Finite (sigma * sqrt T) in
  let discounted := Finite K * np_exp (Finite (- r * T)) in
  if is_call option_type then
    Return (S * norm_cdf d1 - discounted * norm_cdf d2)
  else if is_put option_type then
    Return (discounted * norm_cdf (- d2) - S * norm_cdf (- d1))
  else Raise (ValueError "Invalid option type. Please choose 'call' or 'put'.").
Proof.
  intros HS HK HT Hsq. unfold black_scholes, is_call, is_put, d1_code.
  rewrite leb_Finite_false by assumption.
  rewrite truediv_Finite by lra. cbn [bind].
  rewrite py_pow2_Finite by assumption. cbn [bind].
  rewrite np_log_Finite by (apply Rdiv_lt_0_compat; assumption).
  rewrite np_sqrt_Finite by lra.
  cbn [mul add neg]. reflexivity.
Qed.

(** With a positive volatility the auxiliary quantities are finite and
    the function returns the value of the closed formula, when neither
    the square of the volatility nor the discount factor overflows. *)
Lemma d1_code_finite (S K T r sigma : R) :
  (0 < sigma)%R -> (0 < T)%R ->
  d1_code S K T r sigma = Finite (d1_spec S K T r sigma).
Proof.
  intros Hs HT. unfold d1_code, d1_spec.
  apply div_Finite.
  pose proof (sqrt_lt_R0 T HT). nra.
Qed.

Lemma black_scholes_positive_volatility (S K T r sigma : R) (option_type : string) :
  (0 < S)%R -> (0 < K)%R -> (0 < sigma)%R -> (0 < T)%R ->
  (sigma ^ 2 <= Double.max_float)%R -> (exp (- r * T) <= Double.max_float)%R ->
  black_scholes S K T r sigma option_type =
  if is_call option_type then Return (Finite (call_price_spec S K T r sigma))
  else if is_put option_type then Return (Finite (put_price_spec S K T r sigma))
  else Raise (ValueError "Invalid option type. Please choose 'call' or 'put'.").
Proof.
  intros HS HK Hs HT Hsq Hexp.
  rewrite black_scholes_regular by assumption. cbv zeta.
  rewrite d1_code_finite by assumption.
  rewrite np_exp_Finite by assumption.
  unfold call_price_spec, put_price_spec, d2_spec.
  cbn [sub add neg mul norm_cdf].
  destruct (is_call option_type); [reflexivity |].
  destruct (is_put option_type); reflexivity.
Qed.

Lemma black_scholes_within_range (S K T r sigma : R) (option_type : string) :
  within_range S K T r sigma ->
  black_scholes S K T r sigma option_type =
  if is_call option_type then Return (Finite (call_price_spec S K T r sigma))
  else if is_put option_type then Return (Finite (put_price_spec S K T r sigma))
  else Raise (ValueError "Invalid option type. Please choose 'call' or 'put'.").
Proof.
  intros H. pose proof (within_range_exp _ _ _ _ _ H) as Hexp.
  destruct H as (HS & HK & HT & Hs & _).
  apply black_scholes_positive_volatility;
    auto using moderate_pos, moderate_square.
Qed.

(** The reflection identity of the normal distribution function. *)
Lemma Phi_reflect (x : R) : Phi (- x) = (1 - Phi x)%R.
Proof.
  unfold Phi. replace (- x * - x)%R with (x * x)%R by ring. lra.
Qed.

Lemma is_put_not_call (option_type : string) :
  is_put option_type = true -> is_call option_type = false.
Proof.
  unfold is_put, is_call. intros H.
  apply String.eqb_eq in H. rewrite H. reflexivity.
Qed.

(** Closing a goal that tests the kind, from [is_call _ = true] or
    [is_put _ = true]. *)
Ltac by_kind H :=
  first [ rewrite (is_put_not_call _ H), H; reflexivity | rewrite H; reflexivity ].

(** The inputs of the examples: a spot and a strike of 17000, thirty
    days, the rate and the volatility of the script. *)
Lemma script_inputs_within_range :
  within_range 17000 17000 (30 / 365) 0.0685 0.145.
Proof.
  unfold within_range.
  repeat split; try (apply Rabs_le); try lra.
Qed.

(* ================================================================== *)
(** * Properties of the pricing function                                *)
(* ================================================================== *)

(** C1 (the expired branch).  For an option type that is neither call nor
    put and a time to expiry [T <= 0] the pricing function raises no
    error: it returns the price [0.0]. *)
Theorem unknown_kind_expired_returns_zero
  (S K T r sigma : float) (option_type : string) :
  (T <=? 0) = true ->
  is_call option_type = false ->
  is_put option_type = false ->
  black_scholes S K T r sigma option_type = Return (Finite 0).
Proof.
  intros HT Hc Hp.
  rewrite black_scholes_expired by exact HT.
  rewrite Hc, Hp. reflexivity.
Qed.

Lemma unknown_kind_expired_example :
  black_scholes 100 90 0 0.05 0.2 "straddle" = Return (Finite 0).
Proof.
  apply unknown_kind_expired_returns_zero.
  - apply leb_Finite_true. lra.
  - reflexivity.
  - reflexivity.
Defined.

(** The regular branch does raise for such an option type (with a
    non-zero strike and a volatility whose square does not overflow, so
    that neither [S / K] nor [sigma ** 2] raises first). *)
Lemma unknown_kind_regular_raises (S K T r sigma : R) (option_type : string) :
  (0 < S)%R -> (0 < K)%R -> (0 < T)%R -> (sigma ^ 2 <= Double.max_float)%R ->
  is_call option_type = false ->
  is_put option_type = false ->
  black_scholes S K T r sigma option_type =
  Raise (ValueError "Invalid option type. Please choose 'call' or 'put'.").
Proof.
  intros HS HK HT Hsq Hc Hp.
  rewrite black_scholes_regular by assumption. cbv zeta.
  rewrite Hc, Hp. reflexivity.
Qed.

(** With a zero strike the regular branch raises [ZeroDivisionError] in
    [S / K], whatever the option type. *)
Lemma zero_strike_regular_raises (S T r sigma : float) (option_type : string) :
  (T <=? 0) = false ->
  black_scholes S (Finite 0) T r sigma option_type = Raise ZeroDivisionError.
Proof.
  intros HT. unfold black_scholes, truediv. rewrite HT.
  cbn [eqb]. rewrite Reqb_true by reflexivity. reflexivity.
Qed.

(** C2 (the code at a zero volatility).  At the money and with a zero
    rate, a zero volatility and [T > 0] make the pricing function divide
    zero by zero: for a call and for a put it raises nothing and returns
    [nan]. *)
Theorem zero_volatility_at_the_money_returns_nan
  (S T : R) (option_type : string) :
  (0 < S)%R -> (0 < T)%R ->
  (is_call option_type || is_put option_type) = true ->
  black_scholes S S T 0 0 option_type = Return NaN.
Proof.
  intros HS HT Hkind.
  assert (Hsq : (0 ^ 2 <= Double.max_float)%R).
  { pose proof max_float_ge_1. lra. }
  rewrite black_scholes_regular by assumption. cbv zeta.
  assert (Hd1 : d1_code S S T 0 0 = NaN).
  { unfold d1_code. rewrite div_Finite_zero by ring.
    apply signed_inf_zero.
    replace (S / S)%R with 1%R by (field; lra). rewrite ln_1. ring. }
  rewrite Hd1.
  rewrite np_exp_Finite.
  2:{ replace (- 0 * T)%R with 0%R by ring. rewrite exp_0. apply max_float_ge_1. }
  cbn [sub add neg mul norm_cdf].
  destruct (is_call option_type); [reflexivity |].
  destruct (is_put option_type); [reflexivity | discriminate].
Qed.

Lemma zero_volatility_returns_nan :
  black_scholes 100 100 1 0 0 "call" = Return NaN.
Proof.
  apply (zero_volatility_at_the_money_returns_nan 100 1 "call");
    [lra | lra | reflexivity].
Defined.

(** C4.  For [T <= 0] the pricing function returns exactly the intrinsic
    value, [max(0, S - K)] for a call and [max(0, K - S)] for a put.  The
    value depends on neither the rate nor the volatility, no logarithm,
    exponential or distribution function enters it, and it is returned
    also for a zero strike or a zero volatility, where the formula of the
    regular branch would divide by zero. *)
Theorem expired_option_is_intrinsic
  (S K T r sigma : R) (option_type : string) :
  (T <= 0)%R ->
  (is_call option_type = true ->
   black_scholes S K T r sigma option_type = Return (Finite (intrinsic_value_spec S K Call)))
  /\
  (is_put option_type = true ->
   black_scholes S K T r sigma option_type = Return (Finite (intrinsic_value_spec S K Put))).
Proof.
  intros HT.
  rewrite black_scholes_expired by (apply leb_Finite_true; exact HT).
  cbn [sub add neg]. rewrite !py_max_Finite.
  split; intros H; by_kind H.
Qed.

Lemma expired_option_is_intrinsic_witness :
  black_scholes 17100 17000 0 0.0685 0.145 "call"
  = Return (Finite (intrinsic_value_spec 17100 17000 Call))
  /\ black_scholes 17100 0 (-1) 0.0685 0 "Put"
     = Return (Finite (intrinsic_value_spec 17100 0 Put)).
Proof.
  split.
  - apply (expired_option_is_intrinsic 17100 17000 0 0.0685 0.145 "call");
      [lra | reflexivity].
  - apply (expired_option_is_intrinsic 17100 0 (-1) 0.0685 0 "Put");
      [lra | reflexivity].
Defined.

(** C5, within the range of the doubles.  For spot, strike, time to
    expiry and volatility between [2^-64] and [2^64] and a rate with
    [|r * T| <= 500] the pricing function returns the value of the closed
    formula, with
    [d1 = (ln (S / K) + (r + 0.5 * sigma^2) * T) / (sigma * sqrt T)] and
    [d2 = d1 - sigma * sqrt T]:
    [S * Phi d1 - K * exp (- r * T) * Phi d2] for a call and
    [K * exp (- r * T) * Phi (- d2) - S * Phi (- d1)] for a put. *)
Theorem regular_price_is_closed_form
  (S K T r sigma : R) (option_type : string) :
  within_range S K T r sigma ->
  (is_call option_type = true ->
   black_scholes S K T r sigma option_type =
   Return (Finite (call_price_spec S K T r sigma)))
  /\
  (is_put option_type = true ->
   black_scholes S K T r sigma option_type =
   Return (Finite (put_price_spec S K T r sigma))).
Proof.
  intros H.
  rewrite black_scholes_within_range by assumption.
  split; intros Hk; by_kind Hk.
Qed.

Lemma regular_price_is_closed_form_witness :
  black_scholes 17000 17000 (30 / 365)%R 0.0685 0.145 "call" =
    Return (Finite (call_price_spec 17000 17000 (30 / 365) 0.0685 0.145))
  /\ black_scholes 17000 17000 (30 / 365)%R 0.0685 0.145 "put" =
    Return (Finite (put_price_spec 17000 17000 (30 / 365) 0.0685 0.145)).
Proof.
  split.
  - apply (regular_price_is_closed_form 17000 17000 (30 / 365) 0.0685 0.145 "call");
      [exact script_inputs_within_range | reflexivity].
  - apply (regular_price_is_closed_form 17000 17000 (30 / 365) 0.0685 0.145 "put");
      [exact script_inputs_within_range | reflexivity].
Defined.

(** C5 as stated fails: with the volatility [2^600], a positive double
    whose square is beyond the largest double, [sigma ** 2] raises
    [OverflowError] and the function returns nothing. *)
Lemma huge_volatility_raises_overflow_error :
  black_scholes 100 100 1 0.05 (Finite (2 ^ 600)) "call" = Raise OverflowError.
Proof.
  unfold black_scholes.
  rewrite leb_Finite_false by lra.
  rewrite truediv_Finite by lra. cbn [bind].
  rewrite py_pow2_overflow; [reflexivity |].
  rewrite <- pow_mult. apply max_float_lt_pow. lia.
Qed.

(** C8, within the range of the doubles.  For spot, strike, time to
    expiry and volatility between [2^-64] and [2^64] and a rate with
    [|r * T| <= 500], the call and the put price on the same inputs are
    both finite numbers, and they satisfy put-call parity:
    [call - put = S - K * exp (- r * T)].  (The arithmetic of the model
    is exact on these values, so parity holds with no tolerance.) *)
Theorem put_call_parity (S K T r sigma : R) :
  within_range S K T r sigma ->
  exists call put : R,
    black_scholes S K T r sigma "call" = Return (Finite call)
    /\ black_scholes S K T r sigma "put" = Return (Finite put)
    /\ (call - put = S - K * exp (- r * T))%R.
Proof.
  intros H.
  exists (call_price_spec S K T r sigma), (put_price_spec S K T r sigma).
  rewrite !black_scholes_within_range by assumption.
  split; [reflexivity |]. split; [reflexivity |].
  unfold call_price_spec, put_price_spec.
  rewrite !Phi_reflect. ring.
Qed.

Lemma put_call_parity_witness :
  exists call put : R,
    black_scholes 17000 17000 (30 / 365)%R 0.0685 0.145 "call" = Return (Finite call)
    /\ black_scholes 17000 17000 (30 / 365)%R 0.0685 0.145 "put" = Return (Finite put)
    /\ (call - put = 17000 - 17000 * exp (- (0.0685) * (30 / 365)))%R.
Proof.
  apply (put_call_parity 17000 17000 (30 / 365) 0.0685 0.145).
  exact script_inputs_within_range.
Defined.

(** C8 as stated fails: with the rate [-2000] and [T = 1] the discount
    factor [np.exp(2000)] overflows to [inf], and the call price the
    function returns is no finite number. *)
Lemma overflowing_discount_gives_no_finite_price :
  exists price : float,
    black_scholes 100 100 1 (Finite (-2000)) 0.2 "call" = Return price
    /\ is_finite price = false.
Proof.
  assert (Hsq : (0.2 ^ 2 <= Double.max_float)%R).
  { pose proof max_float_ge_1. lra. }
  rewrite black_scholes_regular by (try lra; exact Hsq). cbv zeta.
  change (is_call "call") with true. cbv iota.
  rewrite d1_code_finite by lra.
  replace (- -2000 * 1)%R with 2000%R by lra.
  rewrite np_exp_overflow by exact exp_2000_beyond_range.
  cbn [mul]. rewrite signed_inf_pos by lra.
  cbn [sub add neg norm_cdf mul].
  eexists. split; [reflexivity |].
  unfold signed_inf.
  destruct (Rltb 0 _); [reflexivity |].
  destruct (Rltb _ 0); reflexivity.
Qed.

(* ================================================================== *)
(** * The error columns of a record with real prices                    *)
(* ================================================================== *)

Lemma error_sample_zero (s : sample) :
  observed_price s = 0%R ->
  Percentage_Error (error_sample s) = PosInf
  /\ Absolute_Percentage_Error (error_sample s) = PosInf.
Proof.
  intros H. unfold error_sample, error_columns; cbn [Percentage_Error Absolute_Percentage_Error].
  unfold neb; cbn [eqb]. rewrite Reqb_true by exact H. cbn [negb abs].
  split; reflexivity.
Qed.

Lemma error_sample_nonzero (s : sample) :
  observed_price s <> 0%R ->
  Percentage_Error (error_sample s)
  = Finite (percentage_error_spec (theoretical_price s) (observed_price s))
  /\ Absolute_Percentage_Error (error_sample s)
     = Finite (Rabs (percentage_error_spec (theoretical_price s) (observed_price s))).
Proof.
  intros H. unfold error_sample, error_columns; cbn [Percentage_Error Absolute_Percentage_Error].
  rewrite neb_Finite_true by exact H.
  cbn [sub add neg]. rewrite div_Finite by exact H. cbn [mul abs].
  split; reflexivity.
Qed.

Lemma error_sample_well_formed (s : sample) : well_formed (error_sample s).
Proof.
  destruct (Req_dec_T (observed_price s) 0) as [H | H].
  - destruct (error_sample_zero s H) as [Hp Ha].
    split; [right; exact Hp | rewrite Ha, Hp; reflexivity].
  - destruct (error_sample_nonzero s H) as [Hp Ha].
    split; [left; rewrite Hp; reflexivity | rewrite Ha, Hp; reflexivity].
Qed.

Lemma error_samples_well_formed (l : list sample) :
  Forall well_formed (error_samples l).
Proof.
  unfold error_samples. apply Forall_map, Forall_forall.
  intros s _. apply error_sample_well_formed.
Qed.

Lemma is_finite_error_sample (s : sample) :
  is_finite (Percentage_Error (error_sample s)) = negb (Reqb (observed_price s) 0).
Proof.
  destruct (Req_dec_T (observed_price s) 0) as [H | H].
  - destruct (error_sample_zero s H) as [Hp _]. rewrite Hp, Reqb_true by exact H. reflexivity.
  - destruct (error_sample_nonzero s H) as [Hp _]. rewrite Hp, Reqb_false by exact H. reflexivity.
Qed.

(** On a well-formed row the two filters of the summary keep exactly the
    rows of the defined subset. *)
Lemma not_inf_percentage (row : row) :
  well_formed row ->
  not_inf (Percentage_Error row) = is_finite (Percentage_Error row).
Proof.
  intros [[H | H] _].
  - destruct (Percentage_Error row); try discriminate H. reflexivity.
  - rewrite H. reflexivity.
Qed.

Lemma not_inf_absolute (row : row) :
  well_formed row ->
  not_inf (Absolute_Percentage_Error row) = is_finite (Percentage_Error row).
Proof.
  intros [[H | H] Ha]; rewrite Ha.
  - destruct (Percentage_Error row); try discriminate H. reflexivity.
  - rewrite H. reflexivity.
Qed.

Lemma filter_ext_Forall {A : Type} (P : A -> Prop) (f g : A -> bool) (l : list A) :
  Forall P l -> (forall a, P a -> f a = g a) -> filter f l = filter g l.
Proof.
  intros HP Hfg. induction HP as [| a l Ha _ IH]; cbn [filter]; [reflexivity |].
  rewrite (Hfg a Ha), IH. reflexivity.
Qed.

Lemma valid_absolute_errors_defined (options_df : list row) :
  Forall well_formed options_df ->
  valid_absolute_errors options_df
  = map Absolute_Percentage_Error (defined_subset options_df).
Proof.
  intros H. unfold valid_absolute_errors, defined_subset. f_equal.
  apply (filter_ext_Forall well_formed); [exact H |].
  intros row Hrow. apply not_inf_absolute, Hrow.
Qed.

Lemma valid_errors_defined (options_df : list row) :
  Forall well_formed options_df ->
  valid_errors options_df = map Percentage_Error (defined_subset options_df).
Proof.
  intros H. unfold valid_errors, defined_subset. f_equal.
  apply (filter_ext_Forall well_formed); [exact H |].
  intros row Hrow. apply not_inf_percentage, Hrow.
Qed.

Lemma defined_subset_finite (options_df : list row) :
  Forall well_formed options_df ->
  Forall (fun x => is_finite x = true)
         (map Percentage_Error (defined_subset options_df))
  /\ Forall (fun x => is_finite x = true)
            (map Absolute_Percentage_Error (defined_subset options_df)).
Proof.
  intros H. unfold defined_subset.
  induction H as [| row l Hrow _ [IH1 IH2]]; cbn [filter map].
  - split; constructor.
  - destruct (is_finite (Percentage_Error row)) eqn:E; [| split; assumption].
    cbn [map]. split; constructor; try assumption.
    destruct Hrow as [_ Ha]. rewrite Ha.
    destruct (Percentage_Error row); try discriminate E. reflexivity.
Qed.

(* ================================================================== *)
(** * The reductions on finite values                                   *)
(* ================================================================== *)

Lemma finite_values_map (l : list float) :
  Forall (fun x => is_finite x = true) l -> l = map Finite (finite_values l).
Proof.
  intros H. induction H as [| x l Hx _ IH]; [reflexivity |].
  destruct x; try discriminate Hx. cbn [finite_values map]. f_equal. exact IH.
Qed.


Lemma dropna_Finite (xs : list R) :
  Pandas.dropna (map Finite xs) = map Finite xs.
Proof.
  unfold Pandas.dropna. induction xs as [| x xs IH]; [reflexivity |].
  cbn [map filter is_nan negb]. f_equal. exact IH.
Qed.

Lemma fold_add_Finite (xs : list R) (a : R) :
  fold_left add (map Finite xs) (Finite a) = Finite (a + Rsum xs).
Proof.
  revert a. induction xs as [| x xs IH]; intros a; cbn [map fold_left Rsum fold_right].
  - f_equal. ring.
  - cbn [add]. rewrite IH. f_equal. unfold Rsum. ring.
Qed.

Lemma sum_Finite (xs : list R) : Pandas.sum (map Finite xs) = Finite (Rsum xs).
Proof.
  unfold Pandas.sum. rewrite fold_add_Finite. f_equal. ring.
Qed.

Lemma INR_length_neq_0 {A : Type} (x : A) (xs : list A) :
  INR (List.length (x :: xs)) <> 0%R.
Proof. apply not_0_INR. cbn [List.length]. lia. Qed.

Lemma mean_Finite (xs : list R) :
  xs <> [] -> Pandas.mean (map Finite xs) = Finite (Rmean xs).
Proof.
  intros H. unfold Pandas.mean. rewrite dropna_Finite.
  destruct xs as [| x xs]; [contradiction |].
  change (map Finite (x :: xs)) with (Finite x :: map Finite xs) at 1.
  cbv iota. rewrite sum_Finite, length_map. unfold of_nat.
  rewrite div_Finite by apply INR_length_neq_0. reflexivity.
Qed.

Lemma Rsum_map_ext (f g : R -> R) (xs : list R) :
  (forall x, f x = g x) -> Rsum (map f xs) = Rsum (map g xs).
Proof.
  intros H. induction xs as [| x xs IH]; [reflexivity |].
  cbn [map Rsum fold_right]. unfold Rsum in IH. rewrite H, IH. reflexivity.
Qed.

Lemma Rsum_squares_nonneg (c : R) (xs : list R) :
  (0 <= Rsum (map (fun x => (x - c) ^ 2) xs))%R.
Proof.
  induction xs as [| x xs IH]; cbn [map Rsum fold_right]; [lra |].
  unfold Rsum in IH. pose proof (pow2_ge_0 (x - c)). lra.
Qed.

Lemma var_Finite (xs : list R) :
  (2 <= List.length xs)%nat ->
  Pandas.var (map Finite xs) = Finite (sample_variance xs).
Proof.
  intros H. unfold Pandas.var. rewrite dropna_Finite, length_map.
  destruct (List.length xs <=? 1)%nat eqn:E; [apply Nat.leb_le in E; lia |].
  rewrite sum_Finite. unfold of_nat.
  rewrite div_Finite by (apply not_0_INR; lia).
  rewrite map_map. cbn [sub add neg pow2].
  change (fun x : R => Finite ((Rsum xs / INR (List.length xs) + - x) ^ 2))
    with (fun x : R => Finite ((fun y => ((Rsum xs / INR (List.length xs) + - y) ^ 2)%R) x)).
  rewrite <- (map_map (fun y => ((Rsum xs / INR (List.length xs) + - y) ^ 2)%R) Finite).
  rewrite sum_Finite.
  rewrite div_Finite by (apply not_0_INR; lia).
  unfold sample_variance, Rmean. do 2 f_equal.
  apply Rsum_map_ext. intros x. ring.
Qed.

Lemma sample_variance_nonneg (xs : list R) :
  (2 <= List.length xs)%nat -> (0 <= sample_variance xs)%R.
Proof.
  intros H. unfold sample_variance.
  apply Rmult_le_pos; [apply Rsum_squares_nonneg |].
  apply Rlt_le, Rinv_0_lt_compat, lt_0_INR. lia.
Qed.

Lemma std_Finite (xs : list R) :
  (2 <= List.length xs)%nat ->
  Pandas.std (map Finite xs) = Finite (sample_stddev xs).
Proof.
  intros H. unfold Pandas.std. rewrite var_Finite by exact H.
  rewrite np_sqrt_Finite by (apply sample_variance_nonneg; exact H).
  reflexivity.
Qed.

(* ================================================================== *)
(** * The frame of a list of records                                    *)
(* ================================================================== *)

Lemma defined_subset_cons (s : sample) (l : list sample) :
  defined_subset (error_samples (s :: l))
  = if Reqb (observed_price s) 0 then defined_subset (error_samples l)
    else error_sample s :: defined_subset (error_samples l).
Proof.
  unfold defined_subset, error_samples. cbn [map filter].
  rewrite is_finite_error_sample.
  destruct (Reqb (observed_price s) 0); reflexivity.
Qed.

Lemma filter_andb_nil {A : Type} (f g : A -> bool) (l : list A) :
  filter g l = [] -> filter (fun a => f a && g a) l = [].
Proof.
  induction l as [| a l IH]; intros H; [reflexivity |].
  cbn [filter] in *. destruct (g a); [discriminate H |].
  rewrite andb_false_r. apply IH, H.
Qed.

Lemma valid_absolute_errors_nil_filter (options_df : list row) :
  valid_absolute_errors options_df = [] ->
  filter (fun row => not_inf (Absolute_Percentage_Error row)) options_df = [].
Proof.
  unfold valid_absolute_errors. intros H.
  apply map_eq_nil in H. exact H.
Qed.

(* ================================================================== *)
(** * Properties of the error columns                                   *)
(* ================================================================== *)




(* ================================================================== *)
(** * The error columns with the overflow of the doubles                *)
(* ================================================================== *)

Lemma double_sample_zero (s : sample) :
  observed_price s = 0%R ->
  Percentage_Error (double_sample s) = PosInf
  /\ Absolute_Percentage_Error (double_sample s) = PosInf.
Proof.
  intros H. unfold double_sample, error_columns_double;
    cbn [Percentage_Error Absolute_Percentage_Error].
  unfold neb; cbn [eqb]. rewrite Reqb_true by exact H. cbn [negb abs].
  split; reflexivity.
Qed.

(** Where no operation overflows the columns are those of exact
    arithmetic. *)
Lemma double_sample_exact_zero (s : sample) :
  observed_price s = 0%R ->
  (- Double.max_float <= theoretical_price s <= Double.max_float)%R ->
  double_sample s = error_sample s.
Proof.
  intros H Hth. unfold double_sample, error_sample, error_columns_double, error_columns.
  rewrite H in *. unfold neb; cbn [eqb]. rewrite Reqb_true by reflexivity.
  cbn [negb sub add neg]. rewrite overflow_in_range by lra. reflexivity.
Qed.

Lemma double_sample_exact_nonzero (s : sample) :
  observed_price s <> 0%R ->
  (- Double.max_float <= theoretical_price s - observed_price s
   <= Double.max_float)%R ->
  (- Double.max_float <= (theoretical_price s - observed_price s) / observed_price s
   <= Double.max_float)%R ->
  (- Double.max_float
   <= percentage_error_spec (theoretical_price s) (observed_price s)
   <= Double.max_float)%R ->
  double_sample s = error_sample s.
Proof.
  intros H H1 H2 H3. unfold percentage_error_spec in H3.
  unfold double_sample, error_sample, error_columns_double, error_columns.
  rewrite neb_Finite_true by exact H.
  cbn [sub add neg]. rewrite overflow_in_range by lra.
  rewrite div_Finite by exact H. rewrite overflow_in_range by exact H2.
  cbn [mul]. rewrite overflow_in_range by exact H3.
  reflexivity.
Qed.

(** Records with prices between a thousandth and a thousand in
    magnitude, or a zero observed price, are in this case. *)
Lemma double_sample_exact (s : sample) :
  (- 1000 <= theoretical_price s <= 1000)%R ->
  (observed_price s = 0
   \/ / 1000 <= observed_price s <= 1000
   \/ - 1000 <= observed_price s <= - / 1000)%R ->
  double_sample s = error_sample s.
Proof.
  intros Hth Hobs. pose proof max_float_ge_million as Hmax.
  destruct (Req_dec_T (observed_price s) 0) as [E | E].
  - apply double_sample_exact_zero; [exact E | lra].
  - assert (Hq : (- 2000000 <= (theoretical_price s - observed_price s) / observed_price s
                  <= 2000000)%R).
    { unfold Rdiv. pose proof (Rinv_r (observed_price s) E) as Hi.
      set (i := (/ observed_price s)%R) in *.
      destruct Hobs as [Hobs | [Hobs | Hobs]]; [contradiction | |].
      - assert (0 < i)%R by (apply Rinv_0_lt_compat; lra).
        assert (i <= 1000)%R by nra. split; nra.
      - assert (i < 0)%R by (apply Rinv_lt_0_compat; lra).
        assert (- 1000 <= i)%R by nra. split; nra. }
    pose proof (max_float_ge_pow 30 ltac:(lia)) as H30.
    assert (E30 : (2 ^ 30 = 1073741824)%R) by (simpl; lra).
    apply double_sample_exact_nonzero; [exact E | lra | lra |].
    unfold percentage_error_spec. lra.
Qed.

Lemma double_sample_well_formed (s : sample) :
  no_overflow s -> well_formed (double_sample s).
Proof.
  intros H. split; [| reflexivity].
  destruct (Req_dec_T (observed_price s) 0) as [E | E].
  - right. apply (double_sample_zero s E).
  - left. apply H, E.
Qed.

Lemma double_samples_well_formed (l : list sample) :
  Forall no_overflow l -> Forall well_formed (double_samples l).
Proof.
  intros H. unfold double_samples. apply Forall_map.
  eapply Forall_impl; [| exact H]. apply double_sample_well_formed.
Qed.

Lemma is_finite_double_sample (s : sample) :
  no_overflow s ->
  is_finite (Percentage_Error (double_sample s)) = negb (Reqb (observed_price s) 0).
Proof.
  intros H. destruct (Req_dec_T (observed_price s) 0) as [E | E].
  - rewrite (proj1 (double_sample_zero s E)), Reqb_true by exact E. reflexivity.
  - rewrite (H E), Reqb_false by exact E. reflexivity.
Qed.

Lemma no_overflow_exact (s : sample) :
  double_sample s = error_sample s -> no_overflow s.
Proof.
  intros H E. rewrite H, is_finite_error_sample, Reqb_false by exact E. reflexivity.
Qed.

(** The defined subset of the frame is the rows of the records with a
    non-zero observed price. *)
Lemma defined_subset_double_samples (l : list sample) :
  Forall no_overflow l ->
  defined_subset (double_samples l) = map double_sample (priced_records l).
Proof.
  unfold defined_subset, double_samples, priced_records.
  induction 1 as [| s l Hs _ IH]; [reflexivity |].
  cbn [map filter]. rewrite is_finite_double_sample by exact Hs.
  destruct (negb (Reqb (observed_price s) 0)); cbn [map]; rewrite IH; reflexivity.
Qed.

Lemma priced_records_length (l : list sample) :
  (List.length (priced_records l) + List.length (zero_priced l) = List.length l)%nat.
Proof.
  unfold priced_records, zero_priced.
  induction l as [| s l IH]; [reflexivity |].
  cbn [filter]. destruct (Reqb (observed_price s) 0); cbn [negb List.length]; lia.
Qed.

(** The examples: their rows are those of exact arithmetic. *)
Lemma three_records_exact : double_samples three_records = error_samples three_records.
Proof.
  unfold double_samples, error_samples, three_records. cbn [map].
  rewrite !double_sample_exact; try reflexivity;
    cbn [theoretical_price observed_price]; lra.
Qed.

Lemma three_records_no_overflow : Forall no_overflow three_records.
Proof.
  unfold three_records.
  repeat constructor; apply no_overflow_exact, double_sample_exact;
    cbn [theoretical_price observed_price]; lra.
Qed.

(** The percentage error of the record with the observed price
    [2^-1030] overflows to [+inf], that of the record with the observed
    price [-2^-1030] to [-inf]. *)
Lemma tiny_price_percentage_error :
  Percentage_Error (double_sample tiny_price_record) = PosInf.
Proof.
  assert (Hp : (0 < 2 ^ 1030)%R) by (apply pow_lt; lra).
  assert (Hp1 : (1 <= 2 ^ 1030)%R) by (apply pow_R1_Rle; lra).
  assert (Ht : (0 < / 2 ^ 1030 <= 1)%R).
  { split; [apply Rinv_0_lt_compat, Hp |].
    rewrite <- Rinv_1. apply Rinv_le_contravar; lra. }
  pose proof max_float_ge_million as Hmax.
  pose proof (max_float_lt_pow 1030 ltac:(lia)) as Hlt.
  unfold double_sample, tiny_price_record, error_columns_double;
    cbn [Percentage_Error kind theoretical_price observed_price].
  rewrite neb_Finite_true by lra.
  cbn [sub add neg]. rewrite overflow_in_range by lra.
  rewrite div_Finite by lra.
  rewrite overflow_above.
  - cbn [mul]. rewrite signed_inf_pos by lra. reflexivity.
  - replace ((12.5 + - / 2 ^ 1030) / / 2 ^ 1030)%R with (12.5 * 2 ^ 1030 - 1)%R
      by (field; lra).
    lra.
Qed.



(* ================================================================== *)
(** * Properties of the summary                                         *)
(* ================================================================== *)

(** C6, where no percentage error overflows.  For [N] records of which
    [K] have a zero observed price and the others a finite percentage
    error, the summary counts [N] rows, and the mean and the median of
    the absolute error, the standard deviation and the mean of the signed
    error are taken over the defined subset: the rows of the [N - K]
    records with a non-zero observed price, finite values none of which
    the reductions skip. *)
Theorem statistics_over_defined_samples (l : list sample) :
  Forall no_overflow l ->
  processed_rows (double_samples l) = List.length l
  /\ defined_subset (double_samples l) = map double_sample (priced_records l)
  /\ List.length (defined_subset (double_samples l))
     = (List.length l - List.length (zero_priced l))%nat
  /\ average_absolute_error (double_samples l)
     = Pandas.mean (map Absolute_Percentage_Error (defined_subset (double_samples l)))
  /\ median_absolute_error (double_samples l)
     = Pandas.median (map Absolute_Percentage_Error (defined_subset (double_samples l)))
  /\ std_dev_error (double_samples l)
     = Pandas.std (map Percentage_Error (defined_subset (double_samples l)))
  /\ mean_error (double_samples l)
     = Pandas.mean (map Percentage_Error (defined_subset (double_samples l)))
  /\ Pandas.dropna (map Absolute_Percentage_Error (defined_subset (double_samples l)))
     = map Absolute_Percentage_Error (defined_subset (double_samples l))
  /\ Pandas.dropna (map Percentage_Error (defined_subset (double_samples l)))
     = map Percentage_Error (defined_subset (double_samples l)).
Proof.
  intros H.
  pose proof (double_samples_well_formed l H) as Hwf.
  pose proof (defined_subset_finite _ Hwf) as [Hp Ha].
  split; [unfold processed_rows, double_samples; apply length_map |].
  split; [apply defined_subset_double_samples, H |].
  split.
  { rewrite defined_subset_double_samples, length_map by exact H.
    pose proof (priced_records_length l). lia. }
  unfold average_absolute_error, median_absolute_error, std_dev_error, mean_error.
  rewrite valid_absolute_errors_defined, valid_errors_defined by exact Hwf.
  repeat (split; [reflexivity |]).
  rewrite (finite_values_map _ Ha), (finite_values_map _ Hp), !dropna_Finite.
  split; reflexivity.
Qed.

Lemma statistics_over_defined_samples_witness :
  processed_rows (double_samples three_records) = List.length three_records
  /\ defined_subset (double_samples three_records)
     = map double_sample (priced_records three_records)
  /\ List.length (defined_subset (double_samples three_records))
     = (List.length three_records - List.length (zero_priced three_records))%nat
  /\ average_absolute_error (double_samples three_records)
     = Pandas.mean (map Absolute_Percentage_Error
                        (defined_subset (double_samples three_records)))
  /\ median_absolute_error (double_samples three_records)
     = Pandas.median (map Absolute_Percentage_Error
                          (defined_subset (double_samples three_records)))
  /\ std_dev_error (double_samples three_records)
     = Pandas.std (map Percentage_Error (defined_subset (double_samples three_records)))
  /\ mean_error (double_samples three_records)
     = Pandas.mean (map Percentage_Error (defined_subset (double_samples three_records)))
  /\ Pandas.dropna (map Absolute_Percentage_Error
                        (defined_subset (double_samples three_records)))
     = map Absolute_Percentage_Error (defined_subset (double_samples three_records))
  /\ Pandas.dropna (map Percentage_Error (defined_subset (double_samples three_records)))
     = map Percentage_Error (defined_subset (double_samples three_records)).
Proof.
  apply (statistics_over_defined_samples three_records).
  exact three_records_no_overflow.
Defined.

(** C6 as stated fails: the record with the theoretical price 12.5 and
    the observed price [2^-1030] has a non-zero observed price, so
    [N = 1] and [K = 0], but its percentage error overflows to [+inf] and
    the statistics are taken over no value at all. *)
Lemma tiny_price_record_is_left_out :
  processed_rows (double_samples [tiny_price_record]) = 1%nat
  /\ List.length (zero_priced [tiny_price_record]) = 0%nat
  /\ List.length (valid_absolute_errors (double_samples [tiny_price_record])) = 0%nat
  /\ List.length (valid_errors (double_samples [tiny_price_record])) = 0%nat.
Proof.
  split; [reflexivity |].
  split.
  { unfold zero_priced, tiny_price_record. cbn [filter observed_price].
    rewrite Reqb_false; [reflexivity |].
    apply Rinv_neq_0_compat, pow_nonzero. lra. }
  unfold valid_absolute_errors, valid_errors, double_samples. cbn [map filter].
  change (Absolute_Percentage_Error (double_sample tiny_price_record))
    with (abs (Percentage_Error (double_sample tiny_price_record))).
  rewrite tiny_price_percentage_error.
  split; reflexivity.
Qed.

(** C7 (the two summaries on a frame without a defined sample).  On a
    frame that is not empty and whose defined subset is empty, the
    overall summary of the main script prints the mean absolute error,
    [nan], as a number, where the quantitative summary tests it with
    [pd.isna] and prints that it could not be calculated. *)
Theorem overall_summary_lacks_the_nan_test (s : sample) (l : list sample) :
  defined_subset (error_samples (s :: l)) = [] ->
  overall_summary (error_samples (s :: l))
  = Some (List.length (s :: l), Percent NaN)
  /\ exists shown : summary,
       quantitative_summary (error_samples (s :: l)) = Some shown
       /\ shown_average_absolute_error shown = NotCalculated.
Proof.
  intros Hempty.
  pose proof (error_samples_well_formed (s :: l)) as Hwf.
  assert (Hva : valid_absolute_errors (error_samples (s :: l)) = [])
    by (rewrite valid_absolute_errors_defined, Hempty by exact Hwf; reflexivity).
  split.
  - unfold overall_summary. rewrite Hva.
    unfold processed_rows, error_samples. rewrite length_map. reflexivity.
  - eexists. split; [reflexivity |].
    cbn [shown_average_absolute_error].
    unfold average_absolute_error. rewrite Hva. reflexivity.
Qed.

Lemma zero_priced_records_defined_subset :
  defined_subset (error_samples zero_priced_records) = [].
Proof.
  unfold zero_priced_records.
  rewrite !defined_subset_cons. cbn [observed_price].
  rewrite !Reqb_true by reflexivity. reflexivity.
Qed.

Lemma overall_summary_lacks_the_nan_test_witness :
  overall_summary (error_samples zero_priced_records)
  = Some (List.length zero_priced_records, Percent NaN)
  /\ exists shown : summary,
       quantitative_summary (error_samples zero_priced_records) = Some shown
       /\ shown_average_absolute_error shown = NotCalculated.
Proof.
  apply (overall_summary_lacks_the_nan_test (mkSample "call" 12.5 0) [mkSample "put" 3 0]).
  exact zero_priced_records_defined_subset.
Defined.

(** X7.  In summary.py every statistic is tested before it is printed:
    when the defined subset is empty, every statistic is [nan] and the
    summary prints, for each of them, that it could not be calculated
    (for the per-kind means, that there is no valid data): no number,
    zero or other, is shown.  For the empty frame the summary is replaced
    by the no-data message. *)
Theorem empty_defined_subset_statistics_undefined (l : list sample) :
  defined_subset (error_samples l) = [] ->
  average_absolute_error (error_samples l) = NaN
  /\ median_absolute_error (error_samples l) = NaN
  /\ std_dev_error (error_samples l) = NaN
  /\ mean_error (error_samples l) = NaN
  /\ average_call_error (error_samples l) = NaN
  /\ average_put_error (error_samples l) = NaN
  /\ match quantitative_summary (error_samples l) with
     | None => l = [] /\ processed_rows (error_samples l) = 0%nat
     | Some shown =>
         total_options_processed shown = List.length l
         /\ shown_average_absolute_error shown = NotCalculated
         /\ shown_average_call_error shown = NoValidData
         /\ shown_average_put_error shown = NoValidData
         /\ shown_median_absolute_error shown = NotCalculated
         /\ shown_std_dev_error shown = NotCalculated
         /\ shown_mean_error shown = NotCalculated
     end.
Proof.
  intros Hempty.
  pose proof (error_samples_well_formed l) as Hwf.
  assert (Hva : valid_absolute_errors (error_samples l) = [])
    by (rewrite valid_absolute_errors_defined, Hempty by exact Hwf; reflexivity).
  assert (Hve : valid_errors (error_samples l) = [])
    by (rewrite valid_errors_defined, Hempty by exact Hwf; reflexivity).
  assert (Hcall : call_options_df (error_samples l) = [])
    by (apply filter_andb_nil, valid_absolute_errors_nil_filter, Hva).
  assert (Hput : put_options_df (error_samples l) = [])
    by (apply filter_andb_nil, valid_absolute_errors_nil_filter, Hva).
  assert (H1 : average_absolute_error (error_samples l) = NaN)
    by (unfold average_absolute_error; rewrite Hva; reflexivity).
  assert (H2 : median_absolute_error (error_samples l) = NaN)
    by (unfold median_absolute_error; rewrite Hva; reflexivity).
  assert (H3 : std_dev_error (error_samples l) = NaN)
    by (unfold std_dev_error; rewrite Hve; reflexivity).
  assert (H4 : mean_error (error_samples l) = NaN)
    by (unfold mean_error; rewrite Hve; reflexivity).
  assert (H5 : average_call_error (error_samples l) = NaN)
    by (unfold average_call_error; rewrite Hcall; reflexivity).
  assert (H6 : average_put_error (error_samples l) = NaN)
    by (unfold average_put_error; rewrite Hput; reflexivity).
  repeat (split; [assumption |]).
  destruct l as [| s l]; [split; reflexivity |].
  unfold quantitative_summary.
  change (error_samples (s :: l)) with (error_sample s :: error_samples l) at 1.
  cbv iota.
  cbn [total_options_processed shown_average_absolute_error shown_average_call_error
       shown_average_put_error shown_median_absolute_error shown_std_dev_error
       shown_mean_error].
  rewrite H1, H2, H3, H4, Hcall, Hput.
  split; [unfold processed_rows, error_samples; apply length_map |].
  repeat split.
Qed.

Lemma empty_defined_subset_statistics_undefined_witness :
  average_absolute_error (error_samples zero_priced_records) = NaN
  /\ median_absolute_error (error_samples zero_priced_records) = NaN
  /\ std_dev_error (error_samples zero_priced_records) = NaN
  /\ mean_error (error_samples zero_priced_records) = NaN
  /\ average_call_error (error_samples zero_priced_records) = NaN
  /\ average_put_error (error_samples zero_priced_records) = NaN
  /\ match quantitative_summary (error_samples zero_priced_records) with
     | None => zero_priced_records = []
               /\ processed_rows (error_samples zero_priced_records) = 0%nat
     | Some shown =>
         total_options_processed shown = List.length zero_priced_records
         /\ shown_average_absolute_error shown = NotCalculated
         /\ shown_average_call_error shown = NoValidData
         /\ shown_average_put_error shown = NoValidData
         /\ shown_median_absolute_error shown = NotCalculated
         /\ shown_std_dev_error shown = NotCalculated
         /\ shown_mean_error shown = NotCalculated
     end.
Proof.
  apply (empty_defined_subset_statistics_undefined zero_priced_records).
  exact zero_priced_records_defined_subset.
Defined.


Lemma three_records_defined_subset :
  defined_subset (error_samples three_records)
  = [ error_sample (mkSample "call" 110 100); error_sample (mkSample "Call" 45 50) ].
Proof.
  unfold three_records.
  rewrite !defined_subset_cons. cbn [observed_price].
  rewrite (Reqb_false 100 0), (Reqb_true 0 0), (Reqb_false 50 0) by lra.
  reflexivity.
Qed.


(** On the three records the signed percentage errors are 10, [+inf]
    and -10; the standard deviation is [sqrt 200], the sum 200 of the
    squared deviations divided by 1 (divided by 2 it would be 10). *)
Example three_records_std_dev :
  std_dev_error (double_samples three_records) = Finite (sqrt 200).
Proof.
  rewrite three_records_exact.
  pose proof (error_samples_well_formed three_records) as Hwf.
  unfold std_dev_error. rewrite valid_errors_defined by exact Hwf.
  rewrite three_records_defined_subset. cbn [map].
  destruct (error_sample_nonzero (mkSample "call" 110 100)) as [E1 _];
    [cbn [observed_price]; lra |].
  destruct (error_sample_nonzero (mkSample "Call" 45 50)) as [E2 _];
    [cbn [observed_price]; lra |].
  rewrite E1, E2. cbn [theoretical_price observed_price].
  change [Finite (percentage_error_spec 110 100); Finite (percentage_error_spec 45 50)]
    with (map Finite [percentage_error_spec 110 100; percentage_error_spec 45 50]).
  rewrite std_Finite by (cbn [List.length]; lia).
  unfold sample_stddev, sample_variance, Rmean, percentage_error_spec.
  cbn [map Rsum fold_right List.length Nat.sub INR].
  do 2 f_equal. field.
Qed.


(* ================================================================== *)
(** * Letter case of the option type                                    *)
(* ================================================================== *)

Lemma lower_upper_ascii (c : ascii) : lower_ascii (upper_ascii c) = lower_ascii c.
Proof.
  destruct c as [[] [] [] [] [] [] [] []]; reflexivity.
Qed.

Lemma lower_upper (s : string) : lower (upper s) = lower s.
Proof.
  induction s as [| c s IH]; cbn [lower upper]; [reflexivity |].
  rewrite lower_upper_ascii, IH. reflexivity.
Qed.

Lemma black_scholes_by_lowered (S K T r sigma : float) (a b : string) :
  lower a = lower b ->
  black_scholes S K T r sigma a = black_scholes S K T r sigma b.
Proof. intros H. unfold black_scholes. rewrite H. reflexivity. Qed.

Lemma per_kind_errors_up_to_case (df df' : list row) :
  Forall2 same_up_to_case df df' ->
  map Absolute_Percentage_Error (call_options_df df)
  = map Absolute_Percentage_Error (call_options_df df')
  /\ map Absolute_Percentage_Error (put_options_df df)
     = map Absolute_Percentage_Error (put_options_df df').
Proof.
  unfold call_options_df, put_options_df.
  induction 1 as [| a b df df' Hab _ [IHc IHp]]; [split; reflexivity |].
  destruct Hab as (Hty & _ & _ & _ & _ & Habs).
  assert (Hc : call_mask a = call_mask b)
    by (unfold call_mask; rewrite Hty, Habs; reflexivity).
  assert (Hp : put_mask a = put_mask b)
    by (unfold put_mask; rewrite Hty, Habs; reflexivity).
  cbn [filter]. rewrite Hc, Hp.
  split.
  - destruct (call_mask b); cbn [map]; rewrite ?Habs, IHc; reflexivity.
  - destruct (put_mask b); cbn [map]; rewrite ?Habs, IHp; reflexivity.
Qed.

(** X2.  In the pricing function and in the per-kind means the option
    type is matched without regard to letter case.  The pricing function
    gives the same result, value or error, for two option types with the
    same lowered form, so for an option type, its lowered form and its
    upper-case form ("CALL" and "Put" are a call and a put); and the
    per-kind frames of the summary, with the means taken over them, are
    the same for two frames that differ only in the letter case of their
    option types. *)
Theorem kind_matching_ignores_case :
  (forall (S K T r sigma : float) (a b : string),
      lower a = lower b ->
      black_scholes S K T r sigma a = black_scholes S K T r sigma b)
  /\ (forall (S K T r sigma : float) (option_type : string),
         black_scholes S K T r sigma (lower option_type)
         = black_scholes S K T r sigma option_type
         /\ black_scholes S K T r sigma (upper option_type)
            = black_scholes S K T r sigma option_type)
  /\ (is_call "CALL" = true /\ is_call "Call" = true /\ is_call "call" = true
      /\ is_put "PUT" = true /\ is_put "Put" = true /\ is_put "put" = true
      /\ is_call "put" = false /\ is_put "call" = false)
  /\ (forall df df' : list row,
         Forall2 same_up_to_case df df' ->
         map Absolute_Percentage_Error (call_options_df df)
         = map Absolute_Percentage_Error (call_options_df df')
         /\ map Absolute_Percentage_Error (put_options_df df)
            = map Absolute_Percentage_Error (put_options_df df')
         /\ average_call_error df = average_call_error df'
         /\ average_put_error df = average_put_error df'
         /\ print_unless_empty (call_options_df df) (average_call_error df)
            = print_unless_empty (call_options_df df') (average_call_error df')
         /\ print_unless_empty (put_options_df df) (average_put_error df)
            = print_unless_empty (put_options_df df') (average_put_error df')).
Proof.
  split; [intros; apply black_scholes_by_lowered; assumption |].
  split.
  { intros. split; apply black_scholes_by_lowered; [apply lower_idem | apply lower_upper]. }
  split; [repeat split |].
  intros df df' H.
  destruct (per_kind_errors_up_to_case df df' H) as [Hc Hp].
  assert (Hac : average_call_error df = average_call_error df')
    by (unfold average_call_error; rewrite Hc; reflexivity).
  assert (Hap : average_put_error df = average_put_error df')
    by (unfold average_put_error; rewrite Hp; reflexivity).
  repeat (split; [assumption |]).
  rewrite Hac, Hap.
  split.
  - destruct (call_options_df df), (call_options_df df');
      try discriminate Hc; reflexivity.
  - destruct (put_options_df df), (put_options_df df');
      try discriminate Hp; reflexivity.
Qed.

(** C10 (the counts per option type).  [value_counts] counts the option
    types as they are written.  On the three records, of types "call",
    "put" and "Call", the rows "call" and "Call" are both rows of the
    frame of the calls, and the counts list them as two of three option
    types, with one row each, not as one option type with two rows. *)
Theorem value_counts_separates_letter_cases :
  map Option_Type (call_options_df (error_samples three_records)) = ["call"; "Call"]%string
  /\ List.length (option_types (error_samples three_records)) = 3%nat
  /\ option_counts (error_samples three_records) "call" = 1%nat
  /\ option_counts (error_samples three_records) "Call" = 1%nat.
Proof.
  split; [| repeat split].
  unfold call_options_df, error_samples, three_records. cbn [map filter].
  unfold call_mask.
  rewrite !not_inf_absolute by apply error_sample_well_formed.
  rewrite !is_finite_error_sample. cbn [observed_price].
  rewrite (Reqb_false 100 0), (Reqb_true 0 0), (Reqb_false 50 0) by lra.
  reflexivity.
Qed.

(* ================================================================== *)
(** * Further properties of the two summaries                           *)
(* ================================================================== *)

(** X1.  The overall summary of the main script prints the mean absolute
    error without looking at it: for a frame that is not empty and whose
    observed prices are all zero it prints [nan]. *)
Theorem overall_summary_prints_nan (s : sample) (l : list sample) :
  defined_subset (error_samples (s :: l)) = [] ->
  overall_summary (error_samples (s :: l))
  = Some (List.length (s :: l), Percent NaN).
Proof.
  intros Hempty.
  pose proof (error_samples_well_formed (s :: l)) as Hwf.
  unfold overall_summary.
  rewrite valid_absolute_errors_defined, Hempty by exact Hwf.
  unfold processed_rows, error_samples. rewrite length_map.
  reflexivity.
Qed.

Lemma overall_summary_prints_nan_witness :
  overall_summary (error_samples zero_priced_records)
  = Some (List.length zero_priced_records, Percent NaN).
Proof.
  apply (overall_summary_prints_nan (mkSample "call" 12.5 0) [mkSample "put" 3 0]).
  exact zero_priced_records_defined_subset.
Defined.

(** On the three records the absolute percentage errors are 10, [+inf]
    and 10: the mean and the median of the two that count are 10. *)
Example three_records_mean_median :
  average_absolute_error (error_samples three_records) = Finite 10
  /\ median_absolute_error (error_samples three_records) = Finite 10.
Proof.
  pose proof (error_samples_well_formed three_records) as Hwf.
  unfold average_absolute_error, median_absolute_error.
  rewrite valid_absolute_errors_defined by exact Hwf.
  rewrite three_records_defined_subset. cbn [map].
  destruct (error_sample_nonzero (mkSample "call" 110 100)) as [_ E1];
    [cbn [observed_price]; lra |].
  destruct (error_sample_nonzero (mkSample "Call" 45 50)) as [_ E2];
    [cbn [observed_price]; lra |].
  rewrite E1, E2. cbn [theoretical_price observed_price].
  assert (A1 : Rabs (percentage_error_spec 110 100) = 10%R).
  { unfold percentage_error_spec. rewrite Rabs_pos_eq; lra. }
  assert (A2 : Rabs (percentage_error_spec 45 50) = 10%R).
  { unfold percentage_error_spec.
    replace ((45 - 50) / 50 * 100)%R with (- (10))%R by lra.
    rewrite Rabs_Ropp, Rabs_pos_eq; lra. }
  rewrite A1, A2. split.
  - change [Finite 10; Finite 10] with (map Finite [10%R; 10%R]).
    rewrite mean_Finite by discriminate.
    unfold Rmean. cbn [Rsum fold_right List.length INR]. f_equal. lra.
  - unfold Pandas.median, Pandas.dropna. cbn [filter is_nan negb].
    unfold Pandas.sort. cbn [fold_right Pandas.insert].
    rewrite leb_Finite_true by lra.
    cbn [List.length Nat.odd Nat.even negb Nat.div Nat.divmod fst Nat.sub nth add].
    rewrite div_Finite by lra. f_equal. lra.
Qed.

(* ================================================================== *)
(** * The main script                                                   *)
(* ================================================================== *)

Lemma apply_rows_length {A B : Type} (f : A -> outcome B) (l : list A) (bs : list B) :
  apply_rows f l = Return bs -> List.length bs = List.length l.
Proof.
  revert bs. induction l as [| a l IH]; intros bs H; cbn [apply_rows] in H.
  - injection H as <-. reflexivity.
  - destruct (f a) as [b | e]; cbn [bind] in H; [| discriminate H].
    destruct (apply_rows f l) as [bs' | e]; cbn [bind] in H; [| discriminate H].
    injection H as <-. cbn [List.length]. rewrite (IH bs' eq_refl). reflexivity.
Qed.

(** X3.  When the main script prices every row, the frame it builds has one
    row for each row of the cleaned file: no row is dropped with the
    error columns. *)
Theorem accuracy_test_keeps_every_row (csv : list Csv.quote) (options_df : list row) :
  accuracy_test csv = Return options_df ->
  processed_rows options_df = List.length csv.
Proof.
  unfold accuracy_test, processed_rows.
  destruct csv as [| q csv]; [discriminate |]. apply apply_rows_length.
Qed.

(** With a zero closing price only the difference can overflow. *)
Lemma error_columns_double_zero_close (option_type : string) (price : R) :
  (- Double.max_float <= price <= Double.max_float)%R ->
  error_columns_double option_type (Finite 0) (Finite price)
  = error_columns option_type (Finite 0) (Finite price).
Proof.
  intros H. unfold error_columns_double, error_columns.
  unfold neb; cbn [eqb]. rewrite Reqb_true by reflexivity.
  cbn [negb sub add neg]. rewrite overflow_in_range by lra. reflexivity.
Qed.

Lemma accuracy_test_expiry_day :
  accuracy_test [expiry_day_quote] = Return [expiry_day_row].
Proof.
  unfold accuracy_test, expiry_day_quote, expiry_day_row. cbn [apply_rows].
  cbn [Csv.Nifty_Close Csv.Strike_Price Csv.Option_Type Csv.Option_Close].
  rewrite black_scholes_expired.
  2:{ unfold Csv.T. cbn [Csv.Time_to_Expiration_Days].
      rewrite div_Finite by lra. apply leb_Finite_true. lra. }
  change (is_call "Call") with true. cbv iota. cbn [bind].
  cbn [sub add neg]. rewrite py_max_Finite.
  rewrite error_columns_double_zero_close; [reflexivity |].
  pose proof max_float_ge_million. unfold Rmax.
  destruct (Rle_dec _ _); lra.
Qed.

Lemma accuracy_test_keeps_every_row_witness :
  processed_rows [expiry_day_row] = List.length [expiry_day_quote].
Proof.
  apply (accuracy_test_keeps_every_row [expiry_day_quote]).
  exact accuracy_test_expiry_day.
Defined.

(* ================================================================== *)
(** * The pricing function: errors and expiry                           *)
(* ================================================================== *)

Lemma py_max_zero_nonneg (x : float) :
  is_nan (py_max (Finite 0) x) = false
  /\ (py_max (Finite 0) x <? Finite 0) = false.
Proof.
  unfold py_max. destruct x as [x | | | ]; cbn [ltb].
  - unfold Rltb. destruct (Rlt_dec 0 x) as [H | H]; cbn [is_nan ltb]; split;
      try reflexivity; apply Rltb_false; lra.
  - split; reflexivity.
  - cbn [is_nan ltb]. split; [reflexivity | apply Rltb_false; lra].
  - cbn [is_nan ltb]. split; [reflexivity | apply Rltb_false; lra].
Qed.

(** X4.  The pricing function raises in exactly three cases, all in the
    regular branch (not [T <= 0]), in this order: [ZeroDivisionError]
    for a zero strike; otherwise [OverflowError] for a finite volatility
    whose square is beyond the largest double; otherwise [ValueError]
    for an option type that is neither call nor put.  Nothing else
    raises: a zero or negative volatility, a non-positive spot and [nan]
    or infinite inputs all return a value. *)
Theorem black_scholes_raises_iff
  (S K T r sigma : float) (option_type : string) (e : exn) :
  black_scholes S K T r sigma option_type = Raise e
  <->
  (T <=? 0) = false
  /\ (((K =? 0) = true /\ e = ZeroDivisionError)
      \/ ((K =? 0) = false /\ square_overflows sigma = true /\ e = OverflowError)
      \/ ((K =? 0) = false /\ square_overflows sigma = false
          /\ is_call option_type = false /\ is_put option_type = false
          /\ e = ValueError "Invalid option type. Please choose 'call' or 'put'.")).
Proof.
  unfold black_scholes, truediv, is_call, is_put.
  destruct (T <=? 0).
  - split.
    + destruct (lower option_type =? "call")%string; [discriminate |].
      destruct (lower option_type =? "put")%string; discriminate.
    + intros [H _]. discriminate H.
  - destruct (K =? 0); cbn [bind].
    + split.
      * intros H. injection H as <-. split; [reflexivity |]. left. split; reflexivity.
      * intros [_ [[_ ->] | [[H _] | [H _]]]]; [reflexivity | discriminate H ..].
    + destruct (square_overflows sigma) eqn:Esq.
      * rewrite (py_pow2_square_overflows sigma Esq). cbn [bind]. split.
        -- intros H. injection H as <-. split; [reflexivity |].
           right. left. repeat split.
        -- intros [_ [[H _] | [(_ & _ & ->) | (_ & H & _)]]];
             [discriminate H | reflexivity | discriminate H].
      * destruct (py_pow2_returns sigma Esq) as [v ->]. cbn [bind].
        destruct (lower option_type =? "call")%string.
        -- split; [discriminate |].
           intros [_ [[H _] | [(_ & H & _) | (_ & _ & H & _)]]]; discriminate H.
        -- destruct (lower option_type =? "put")%string.
           ++ split; [discriminate |].
              intros [_ [[H _] | [(_ & H & _) | (_ & _ & _ & H & _)]]]; discriminate H.
           ++ split.
              ** intros H. injection H as <-. split; [reflexivity |].
                 right. right. repeat split.
              ** intros [_ [[H _] | [(_ & H & _) | (_ & _ & _ & _ & ->)]]];
                   [discriminate H | discriminate H | reflexivity].
Qed.

(** X5.  In the expired branch ([T <= 0]) the pricing function never
    raises, and the value it returns is never [nan] and never negative,
    whatever floats it is given: [max(0.0, x)] returns [0.0] for a [nan]
    difference. *)
Theorem expired_price_is_nonnegative
  (S K T r sigma : float) (option_type : string) :
  (T <=? 0) = true ->
  exists v : float,
    black_scholes S K T r sigma option_type = Return v
    /\ is_nan v = false
    /\ (v <? Finite 0) = false.
Proof.
  intros HT. rewrite black_scholes_expired by exact HT.
  destruct (is_call option_type).
  - eexists. split; [reflexivity | apply py_max_zero_nonneg].
  - destruct (is_put option_type).
    + eexists. split; [reflexivity | apply py_max_zero_nonneg].
    + exists (Finite 0). split; [reflexivity |].
      split; [reflexivity | apply Rltb_false; lra].
Qed.

Lemma expired_price_is_nonnegative_witness :
  exists v : float,
    black_scholes NaN (Finite 17000) (Finite 0) NaN NegInf "put" = Return v
    /\ is_nan v = false
    /\ (v <? Finite 0) = false.
Proof.
  apply (expired_price_is_nonnegative NaN (Finite 17000) (Finite 0) NaN NegInf "put").
  apply leb_Finite_true. lra.
Defined.

(** X6.  At and after expiry ([T <= 0]) the call and the put price on the
    same spot and strike differ by exactly [S - K] (parity without a
    discount factor), both are non-negative and at most one of them is
    not zero. *)
Theorem expiry_parity (S K T r sigma : R) :
  (T <= 0)%R ->
  exists call put : R,
    black_scholes S K T r sigma "call" = Return (Finite call)
    /\ black_scholes S K T r sigma "put" = Return (Finite put)
    /\ (call - put = S - K)%R
    /\ (0 <= call)%R /\ (0 <= put)%R
    /\ (call = 0%R \/ put = 0%R).
Proof.
  intros HT.
  exists (Rmax 0 (S - K)), (Rmax 0 (K - S)).
  rewrite !black_scholes_expired by (apply leb_Finite_true; exact HT).
  change (is_call "call") with true. change (is_call "put") with false.
  change (is_put "put") with true. cbv iota.
  cbn [sub add neg]. rewrite !py_max_Finite.
  split; [reflexivity |]. split; [reflexivity |].
  unfold Rmax.
  destruct (Rle_dec 0 (S - K)), (Rle_dec 0 (K - S)); repeat split; try lra;
    try (left; lra); try (right; lra).
Qed.

Lemma expiry_parity_witness :
  exists call put : R,
    black_scholes 17100 17000 0 0.0685 0.145 "call" = Return (Finite call)
    /\ black_scholes 17100 17000 0 0.0685 0.145 "put" = Return (Finite put)
    /\ (call - put = 17100 - 17000)%R
    /\ (0 <= call)%R /\ (0 <= put)%R
    /\ (call = 0%R \/ put = 0%R).
Proof.
  apply (expiry_parity 17100 17000 0 0.0685 0.145). lra.
Defined.

(* ================================================================== *)
(** * The main script: failing rows, well-listed rows                   *)
(* ================================================================== *)

Lemma apply_rows_Raise_inv {A B : Type} (f : A -> outcome B) (l : list A) (e : exn) :
  apply_rows f l = Raise e ->
  exists (l1 : list A) (a : A) (l2 : list A),
    l = l1 ++ a :: l2
    /\ Forall (fun a' => exists b, f a' = Return b) l1
    /\ f a = Raise e.
Proof.
  induction l as [| a l IH]; cbn [apply_rows]; intros H; [discriminate H |].
  destruct (f a) as [b | e1] eqn:Ea; cbn [bind] in H.
  - destruct (apply_rows f l) as [bs | e2]; cbn [bind] in H; [discriminate H |].
    injection H as H; subst e2.
    destruct (IH eq_refl) as (l1 & a' & l2 & Hl & Hl1 & Ha').
    exists (a :: l1), a', l2. subst l.
    split; [reflexivity |]. split; [| exact Ha'].
    constructor; [exists b; exact Ea | exact Hl1].
  - injection H as H; subst e1.
    exists [], a, l. split; [reflexivity |]. split; [constructor | exact Ea].
Qed.

Lemma apply_rows_Raise_intro {A B : Type} (f : A -> outcome B)
      (l1 : list A) (a : A) (l2 : list A) (e : exn) :
  Forall (fun a' => exists b, f a' = Return b) l1 ->
  f a = Raise e ->
  apply_rows f (l1 ++ a :: l2) = Raise e.
Proof.
  intros Hl1 Ha. induction Hl1 as [| a1 l1 [b Hb] _ IH]; cbn [app apply_rows].
  - rewrite Ha. reflexivity.
  - rewrite Hb. cbn [bind]. rewrite IH. reflexivity.
Qed.

Lemma apply_rows_Raise_iff {A B : Type} (f : A -> outcome B) (l : list A) (e : exn) :
  apply_rows f l = Raise e
  <->
  exists (l1 : list A) (a : A) (l2 : list A),
    l = l1 ++ a :: l2
    /\ Forall (fun a' => exists b, f a' = Return b) l1
    /\ f a = Raise e.
Proof.
  split; [apply apply_rows_Raise_inv |].
  intros (l1 & a & l2 & -> & Hl1 & Ha). apply apply_rows_Raise_intro; assumption.
Qed.

(** X8.  The main script fails as a whole in two cases.  On a frame
    without rows the assignment of the price column raises [ValueError].
    On a frame with rows it fails with the exception of the first row
    whose pricing raises: it raises [e] exactly when some row raises [e]
    and every row before it is priced; the rows after it are not looked
    at, and no frame is built. *)
Theorem accuracy_test_raises_iff (csv : list Csv.quote) (e : exn) :
  (exists msg : string, accuracy_test [] = Raise (ValueError msg))
  /\ (csv <> [] ->
      (accuracy_test csv = Raise e
       <->
       exists (before : list Csv.quote) (q : Csv.quote) (after : list Csv.quote),
         csv = before ++ q :: after
         /\ Forall (fun q' => exists v, quote_price q' = Return v) before
         /\ quote_price q = Raise e)).
Proof.
  split; [eexists; reflexivity |].
  intros Hne. unfold accuracy_test.
  destruct csv as [| q0 csv]; [contradiction |].
  rewrite apply_rows_Raise_iff.
  split; intros (l1 & q & l2 & H & Hl1 & Hq); exists l1, q, l2;
    (split; [exact H |]); split.
  - eapply Forall_impl; [| exact Hl1]. cbv beta. intros q' [b Hb].
    fold (quote_price q') in Hb.
    destruct (quote_price q') as [v | e']; [exists v; reflexivity |].
    cbn [bind] in Hb. discriminate Hb.
  - cbv beta in Hq. fold (quote_price q) in Hq.
    destruct (quote_price q) as [v | e']; cbn [bind] in Hq;
      [discriminate Hq | congruence].
  - eapply Forall_impl; [| exact Hl1]. cbv beta. intros q' [v Hv].
    fold (quote_price q'). rewrite Hv. cbn [bind]. eexists. reflexivity.
  - cbv beta. fold (quote_price q). rewrite Hq. reflexivity.
Qed.





(* ================================================================== *)
(** * The summary on a frame with a single defined sample               *)
(* ================================================================== *)

Lemma Rmean_singleton (a : R) : Rmean [a] = a.
Proof. unfold Rmean, Rsum. cbn [fold_right List.length INR]. field. Qed.

(** X12.  When no percentage error overflows and exactly one record has
    a non-zero observed price, the mean and the median of the absolute
    error are that record's absolute error and the mean error is its
    signed error, but the standard deviation is [nan] (it divides by the
    count minus one) and the summary prints that it could not be
    calculated. *)
Theorem single_defined_record_statistics (l : list sample) :
  Forall no_overflow l ->
  List.length (defined_subset (double_samples l)) = 1%nat ->
  exists row : row,
    defined_subset (double_samples l) = [row]
    /\ is_finite (Absolute_Percentage_Error row) = true
    /\ average_absolute_error (double_samples l) = Absolute_Percentage_Error row
    /\ median_absolute_error (double_samples l) = Absolute_Percentage_Error row
    /\ mean_error (double_samples l) = Percentage_Error row
    /\ std_dev_error (double_samples l) = NaN
    /\ print_unless_na (std_dev_error (double_samples l)) = NotCalculated.
Proof.
  intros Hno H.
  pose proof (double_samples_well_formed l Hno) as Hwf.
  pose proof (defined_subset_finite _ Hwf) as [Hp Ha].
  unfold average_absolute_error, median_absolute_error, mean_error, std_dev_error.
  rewrite valid_absolute_errors_defined, valid_errors_defined by exact Hwf.
  destruct (defined_subset (double_samples l)) as [| row [| row' rest]];
    try discriminate H.
  exists row. cbn [map] in *.
  inversion Hp as [| ? ? Hp1 _]; subst. inversion Ha as [| ? ? Ha1 _]; subst.
  destruct (Percentage_Error row) as [p | | |]; try discriminate Hp1.
  destruct (Absolute_Percentage_Error row) as [a | | |]; try discriminate Ha1.
  split; [reflexivity |]. split; [reflexivity |].
  split.
  - change [Finite a] with (map Finite [a]).
    rewrite mean_Finite by discriminate. rewrite Rmean_singleton. reflexivity.
  - split; [reflexivity |].
    split.
    + change [Finite p] with (map Finite [p]).
      rewrite mean_Finite by discriminate. rewrite Rmean_singleton. reflexivity.
    + split; reflexivity.
Qed.

(** One record with a non-zero observed price, one with a zero one. *)
Lemma single_defined_record_statistics_witness :
  exists row : row,
    defined_subset (double_samples [mkSample "call" 110 100; mkSample "put" 7 0]) = [row]
    /\ is_finite (Absolute_Percentage_Error row) = true
    /\ average_absolute_error (double_samples [mkSample "call" 110 100; mkSample "put" 7 0])
       = Absolute_Percentage_Error row
    /\ median_absolute_error (double_samples [mkSample "call" 110 100; mkSample "put" 7 0])
       = Absolute_Percentage_Error row
    /\ mean_error (double_samples [mkSample "call" 110 100; mkSample "put" 7 0])
       = Percentage_Error row
    /\ std_dev_error (double_samples [mkSample "call" 110 100; mkSample "put" 7 0]) = NaN
    /\ print_unless_na
         (std_dev_error (double_samples [mkSample "call" 110 100; mkSample "put" 7 0]))
       = NotCalculated.
Proof.
  assert (Hno : Forall no_overflow [mkSample "call" 110 100; mkSample "put" 7 0]).
  { repeat constructor; apply no_overflow_exact, double_sample_exact;
      cbn [theoretical_price observed_price]; lra. }
  apply (single_defined_record_statistics
           [mkSample "call" 110 100; mkSample "put" 7 0] Hno).
  rewrite defined_subset_double_samples by exact Hno.
  unfold priced_records. cbn [filter observed_price].
  rewrite (Reqb_false 100 0), (Reqb_true 0 0) by lra. reflexivity.
Defined.

(* ================================================================== *)
(** * The summary on any frame: filters, kinds, counts, row order       *)
(* ================================================================== *)

Lemma not_inf_abs (x : float) :
  not_inf (abs x) = not_inf x && negb (x =? NegInf).
Proof. destruct x; reflexivity. Qed.

Lemma priced_frame_absolute (l : list (string * float * float)) :
  Forall (fun row => Absolute_Percentage_Error row = abs (Percentage_Error row))
         (priced_frame l).
Proof.
  unfold priced_frame. apply Forall_map, Forall_forall. intros t _. reflexivity.
Qed.

(** X13.  On a frame with any floats in its price columns (infinite and
    [nan] prices included), every row that enters the mean and the median
    of the absolute error also enters the standard deviation and the mean
    of the signed error; a row that enters the latter but not the former
    has the percentage error [-inf], which the test against
    [float('inf')] lets through. *)
Theorem absolute_rows_are_signed_rows (l : list (string * float * float)) :
  incl (filter (fun row => not_inf (Absolute_Percentage_Error row)) (priced_frame l))
       (filter (fun row => not_inf (Percentage_Error row)) (priced_frame l))
  /\ (forall row,
         In row (filter (fun row => not_inf (Percentage_Error row)) (priced_frame l)) ->
         ~ In row (filter (fun row => not_inf (Absolute_Percentage_Error row))
                          (priced_frame l)) ->
         Percentage_Error row = NegInf).
Proof.
  pose proof (priced_frame_absolute l) as Habs.
  rewrite Forall_forall in Habs.
  split.
  - intros row H. apply filter_In in H. destruct H as [Hin H].
    apply filter_In. split; [exact Hin |].
    rewrite (Habs row Hin), not_inf_abs in H.
    apply andb_true_iff in H. apply H.
  - intros row H Hnot. apply filter_In in H. destruct H as [Hin H].
    assert (Hb : not_inf (Absolute_Percentage_Error row) = false).
    { destruct (not_inf (Absolute_Percentage_Error row)) eqn:E; [| reflexivity].
      exfalso. apply Hnot, filter_In. split; assumption. }
    rewrite (Habs row Hin), not_inf_abs, H in Hb. cbn [andb] in Hb.
    destruct (Percentage_Error row); try discriminate Hb. reflexivity.
Qed.

(** A row with an infinite price and a negative closing price is such a
    row. *)
Example minus_infinity_passes_signed_filter :
  Percentage_Error (error_columns "call" (Finite (-1)) PosInf) = NegInf
  /\ not_inf (Percentage_Error (error_columns "call" (Finite (-1)) PosInf)) = true
  /\ not_inf (Absolute_Percentage_Error (error_columns "call" (Finite (-1)) PosInf)) = false.
Proof.
  assert (E : Percentage_Error (error_columns "call" (Finite (-1)) PosInf) = NegInf).
  { unfold error_columns. cbn [Percentage_Error].
    rewrite neb_Finite_true by lra. cbn [sub add neg div mul].
    rewrite (Rltb_true (-1) 0) by lra. cbn [mul]. unfold signed_inf.
    rewrite (Rltb_false 0 (- (100))) by lra. rewrite (Rltb_true (- (100)) 0) by lra.
    reflexivity. }
  split; [exact E |].
  change (Absolute_Percentage_Error (error_columns "call" (Finite (-1)) PosInf))
    with (abs (Percentage_Error (error_columns "call" (Finite (-1)) PosInf))).
  rewrite E. split; reflexivity.
Qed.

Lemma masks_exclusive (row : row) : call_mask row && put_mask row = false.
Proof.
  unfold call_mask, put_mask.
  destruct (lower (Option_Type row) =? "put")%string eqn:E.
  - apply String.eqb_eq in E. rewrite E. reflexivity.
  - rewrite andb_false_l, andb_false_r. reflexivity.
Qed.

(** X14.  The per-kind frames are disjoint, and the rows of the overall
    mean split into the calls, the puts and the rows whose option type is
    neither ([CE], [PE], ...): such rows count in the overall statistics
    and in no per-kind mean. *)
Theorem overall_rows_split_by_kind (options_df : list row) :
  (forall row, In row (call_options_df options_df) ->
               ~ In row (put_options_df options_df))
  /\ List.length (valid_absolute_errors options_df)
     = (List.length (call_options_df options_df)
        + List.length (put_options_df options_df)
        + List.length (other_options_df options_df))%nat.
Proof.
  split.
  - intros row Hc Hp. unfold call_options_df, put_options_df in *.
    apply filter_In in Hc. apply filter_In in Hp.
    pose proof (masks_exclusive row) as H.
    rewrite (proj2 Hc), (proj2 Hp) in H. discriminate H.
  - unfold valid_absolute_errors, call_options_df, put_options_df, other_options_df.
    rewrite length_map.
    induction options_df as [| row df IH]; [reflexivity |].
    cbn [filter]. pose proof (masks_exclusive row) as H.
    unfold call_mask, put_mask, is_call, is_put in *.
    destruct (not_inf (Absolute_Percentage_Error row));
      destruct (lower (Option_Type row) =? "call")%string;
      destruct (lower (Option_Type row) =? "put")%string;
      cbn [andb negb List.length] in *; try discriminate H; lia.
Qed.

Lemma count_occ_indicator (ts : list string) (a : string) :
  list_sum (map (fun t => if string_dec a t then 1%nat else 0%nat) ts)
  = count_occ string_dec ts a.
Proof.
  unfold list_sum.
  induction ts as [| t ts IH]; [reflexivity |].
  cbn [map fold_right count_occ]. rewrite IH.
  destruct (string_dec a t) as [E | E], (string_dec t a) as [E' | E'];
    try reflexivity; congruence.
Qed.

Lemma count_occ_sum (l ts : list string) :
  NoDup ts -> incl l ts ->
  list_sum (map (count_occ string_dec l) ts) = List.length l.
Proof.
  intros Hnd. induction l as [| a l IH]; intros Hincl.
  - cbn [count_occ List.length]. unfold list_sum.
    clear Hnd Hincl. induction ts as [| t ts IH]; [reflexivity |].
    cbn [map fold_right]. exact IH.
  - assert (Ha : In a ts) by (apply Hincl; left; reflexivity).
    assert (Hl : incl l ts) by (intros x Hx; apply Hincl; right; exact Hx).
    cbn [List.length]. rewrite <- (IH Hl).
    assert (Hone : count_occ string_dec ts a = 1%nat)
      by (apply NoDup_count_occ'; assumption).
    rewrite <- count_occ_indicator in Hone.
    assert (Hsplit : forall ts',
               list_sum (map (count_occ string_dec (a :: l)) ts')
               = (list_sum (map (fun t => if string_dec a t then 1%nat else 0%nat) ts')
                  + list_sum (map (count_occ string_dec l) ts'))%nat).
    { unfold list_sum. induction ts' as [| t ts' IH']; [reflexivity |].
      cbn [map fold_right]. rewrite IH'. cbn [count_occ].
      destruct (string_dec a t); lia. }
    rewrite Hsplit, Hone. reflexivity.
Qed.

(** X15.  The counts the summary prints per option type add up to the
    number of rows it prints as processed: every row is counted under
    exactly one of the values of [value_counts]. *)
Theorem option_counts_add_up (options_df : list row) :
  list_sum (map (option_counts options_df) (option_types options_df))
  = processed_rows options_df.
Proof.
  unfold option_counts, option_types, processed_rows.
  rewrite <- (length_map Option_Type options_df).
  apply count_occ_sum.
  - apply NoDup_nodup.
  - intros x Hx. apply nodup_In. exact Hx.
Qed.

(** The order of the floats that are not [nan] is total and
    antisymmetric. *)
Ltac float_order :=
  unfold leb, ltb, eqb, Rltb, Reqb in *;
  repeat match goal with
         | |- context [Rlt_dec ?a ?b] => destruct (Rlt_dec a b)
         | |- context [Req_dec_T ?a ?b] => destruct (Req_dec_T a b)
         | H : context [Rlt_dec ?a ?b] |- _ => destruct (Rlt_dec a b)
         | H : context [Req_dec_T ?a ?b] |- _ => destruct (Req_dec_T a b)
         end;
  cbn [orb is_nan] in *;
  try discriminate; try reflexivity; try (exfalso; lra); try (f_equal; lra); auto.

Lemma leb_total (x y : float) :
  is_nan x = false -> is_nan y = false -> (x <=? y) = true \/ (y <=? x) = true.
Proof.
  intros Hx Hy. destruct x as [x | | |], y as [y | | |]; try discriminate;
    try (left; reflexivity); try (right; reflexivity).
  destruct (Rle_lt_dec x y); [left | right]; apply leb_Finite_true; lra.
Qed.

Lemma leb_antisym (x y : float) :
  (x <=? y) = true -> (y <=? x) = true -> x = y.
Proof.
  intros H1 H2. destruct x as [x | | |], y as [y | | |]; float_order.
Qed.

Lemma leb_below_above (x y z : float) :
  (x <=? z) = true -> (y <=? z) = false -> is_nan y = false -> (y <=? x) = false.
Proof.
  intros H1 H2 Hy.
  destruct x as [x | | |], y as [y | | |], z as [z | | |]; float_order.
Qed.

Lemma insert_insert (x y : float) (l : list float) :
  is_nan x = false -> is_nan y = false ->
  Pandas.insert x (Pandas.insert y l) = Pandas.insert y (Pandas.insert x l).
Proof.
  intros Hx Hy. induction l as [| z l IH]; cbn [Pandas.insert].
  - destruct (x <=? y) eqn:Exy, (y <=? x) eqn:Eyx; try reflexivity.
    + rewrite (leb_antisym x y Exy Eyx). reflexivity.
    + destruct (leb_total x y Hx Hy); congruence.
  - destruct (y <=? z) eqn:Eyz, (x <=? z) eqn:Exz; cbn [Pandas.insert].
    + rewrite Exz, Eyz.
      destruct (x <=? y) eqn:Exy, (y <=? x) eqn:Eyx; try reflexivity.
      * rewrite (leb_antisym x y Exy Eyx). reflexivity.
      * destruct (leb_total x y Hx Hy); congruence.
    + rewrite Eyz, (leb_below_above y x z Eyz Exz Hx).
      cbn [Pandas.insert]. rewrite Exz. reflexivity.
    + rewrite Exz, (leb_below_above x y z Exz Eyz Hy).
      cbn [Pandas.insert]. rewrite Eyz. reflexivity.
    + rewrite Exz, Eyz, IH. reflexivity.
Qed.

Lemma sort_Permutation (l l' : list float) :
  Permutation l l' ->
  Forall (fun x => is_nan x = false) l ->
  Pandas.sort l = Pandas.sort l'.
Proof.
  unfold Pandas.sort.
  induction 1 as [| x l l' _ IH | x y l | l l' l'' H1 IH1 H2 IH2]; intros HF.
  - reflexivity.
  - cbn [fold_right]. inversion HF; subst. rewrite IH by assumption. reflexivity.
  - cbn [fold_right]. inversion HF as [| ? ? Hy HF']; subst.
    inversion HF' as [| ? ? Hx _]; subst.
    apply insert_insert; assumption.
  - rewrite IH1 by exact HF. apply IH2.
    eapply Permutation_Forall; eassumption.
Qed.

Lemma filter_Permutation {A : Type} (p : A -> bool) (l l' : list A) :
  Permutation l l' -> Permutation (filter p l) (filter p l').
Proof.
  induction 1 as [| x l l' _ IH | x y l | l l' l'' _ IH1 _ IH2]; cbn [filter].
  - constructor.
  - destruct (p x); [constructor |]; exact IH.
  - destruct (p x), (p y); try apply Permutation_refl. constructor.
  - eapply Permutation_trans; eassumption.
Qed.

Lemma dropna_not_nan (l : list float) :
  Forall (fun x => is_nan x = false) (Pandas.dropna l).
Proof.
  unfold Pandas.dropna. apply Forall_forall. intros x H.
  apply filter_In in H. destruct H as [_ H].
  destruct (is_nan x); [discriminate H | reflexivity].
Qed.

Lemma median_Permutation (l l' : list float) :
  Permutation l l' -> Pandas.median l = Pandas.median l'.
Proof.
  intros H. unfold Pandas.median.
  assert (Hd : Permutation (Pandas.dropna l) (Pandas.dropna l'))
    by (apply filter_Permutation; exact H).
  rewrite (sort_Permutation _ _ Hd (dropna_not_nan l)). reflexivity.
Qed.

(** X16.  The row count, the counts per option type and the median of
    the absolute error do not depend on the order of the rows of the
    frame: they are the same for two frames of which one is a
    rearrangement of the other, whatever floats the rows hold. *)
Theorem summary_ignores_row_order (df df' : list row) :
  Permutation df df' ->
  processed_rows df = processed_rows df'
  /\ (forall option_type, option_counts df option_type = option_counts df' option_type)
  /\ median_absolute_error df = median_absolute_error df'.
Proof.
  intros H. split; [apply Permutation_length, H |]. split.
  - intros option_type. unfold option_counts.
    apply Permutation_count_occ, Permutation_map, H.
  - unfold median_absolute_error, valid_absolute_errors.
    apply median_Permutation, Permutation_map, filter_Permutation, H.
Qed.

Lemma summary_ignores_row_order_witness :
  processed_rows (error_samples three_records)
  = processed_rows (rev (error_samples three_records))
  /\ (forall option_type,
         option_counts (error_samples three_records) option_type
         = option_counts (rev (error_samples three_records)) option_type)
  /\ median_absolute_error (error_samples three_records)
     = median_absolute_error (rev (error_samples three_records)).
Proof.
  apply (summary_ignores_row_order (error_samples three_records)
                                   (rev (error_samples three_records))).
  apply Permutation_rev.
Defined.

(* ================================================================== *)
(** * The per-row lines and the plotting script                         *)
(* ================================================================== *)

(** X17.  For a record whose percentage error does not overflow, the
    per-row lines show "(Infinite %)" exactly when the observed price is
    zero, and the percentage error otherwise. *)
Theorem print_row_of_record (s : sample) :
  no_overflow s ->
  pricing_percentage (print_row (double_sample s))
  = if Reqb (observed_price s) 0 then InfinitePercent
    else PercentOf (Percentage_Error (double_sample s)).
Proof.
  intros H.
  unfold print_row; cbn [pricing_percentage].
  destruct (Req_dec_T (observed_price s) 0) as [E | E].
  - rewrite (proj1 (double_sample_zero s E)), Reqb_true by exact E. reflexivity.
  - rewrite Reqb_false by exact E. specialize (H E).
    destruct (Percentage_Error (double_sample s)); try discriminate H. reflexivity.
Qed.

Lemma print_row_of_record_witness :
  pricing_percentage (print_row (double_sample (mkSample "call" 110 100)))
  = if Reqb (observed_price (mkSample "call" 110 100)) 0 then InfinitePercent
    else PercentOf (Percentage_Error (double_sample (mkSample "call" 110 100))).
Proof.
  apply (print_row_of_record (mkSample "call" 110 100)).
  apply no_overflow_exact, double_sample_exact;
    cbn [theoretical_price observed_price]; lra.
Defined.

Lemma recompute_errors_double_samples (l : list sample) :
  map recompute_errors (double_samples l) = double_samples l.
Proof.
  unfold double_samples. rewrite map_map. apply map_ext. intros s. reflexivity.
Qed.

(** X18.  On a frame of records none of whose percentage errors
    overflows, the plotting script draws the histogram of the signed
    percentage errors of the records with a non-zero observed price, in
    their order, and prints that there is nothing to plot when there is
    no such record (an empty frame included); recomputing the error
    columns first changes nothing. *)
Theorem distribution_plot_of_records (has_error_columns : bool) (l : list sample) :
  Forall no_overflow l ->
  distribution_plot has_error_columns (double_samples l)
  = match priced_records l with
    | [] => NoValidErrors
    | _ => Histogram (map Percentage_Error (map double_sample (priced_records l)))
    end.
Proof.
  intros Hno. unfold distribution_plot.
  assert (H : (if has_error_columns then double_samples l
               else map recompute_errors (double_samples l)) = double_samples l)
    by (destruct has_error_columns; [reflexivity | apply recompute_errors_double_samples]).
  cbv zeta. rewrite H.
  change (errors_to_plot (double_samples l)) with (valid_errors (double_samples l)).
  rewrite valid_errors_defined by (apply double_samples_well_formed, Hno).
  rewrite defined_subset_double_samples by exact Hno.
  destruct (priced_records l); reflexivity.
Qed.

Lemma distribution_plot_of_records_witness :
  distribution_plot false (double_samples three_records)
  = match priced_records three_records with
    | [] => NoValidErrors
    | _ => Histogram (map Percentage_Error
                          (map double_sample (priced_records three_records)))
    end.
Proof.
  apply (distribution_plot_of_records false three_records).
  exact three_records_no_overflow.
Defined.
